(** * Market Integrated Backend: the three endpoints of [main.py]

    A shallow embedding of [get_stock], [get_news], [get_tweets] and
    [tweet_id_to_datetime], with the parts of the Python runtime they lean
    on (string splitting, [datetime.strptime], the proleptic Gregorian
    calendar of [datetime.date]), followed by the properties of the
    endpoints.

    Conventions of the embedding.
    - A Python [str] is a [string] (a sequence of 8-bit characters): the
      links, dates and keywords handled here are ASCII.
    - A Python [int] is a [Z].
    - A [datetime.date] is its proleptic Gregorian ordinal (what
      [date.toordinal()] returns), a [Z] between 1 and 3652059; comparing
      two dates is comparing their ordinals and adding a [timedelta] of
      whole days is adding to the ordinal, with the [OverflowError] of the
      library when the result leaves that range.
    - A price ([float] in the source) is a rational number of [Q] where
      the question is which rows a response is read from; the module
      [Binary64] embeds the same handler with its prices in binary64, the
      arithmetic of the source, for what [var_rel] computes.
    - A JSON object received from a provider is a finite map from keys to
      values ([gmap string jval]); a value is a string or [null].
    - The data frame of the price provider is the list of its rows, the
      index of a row being its date.
    - A raised exception is a value of [exn]; the handlers run in a small
      monad that reads the providers and threads the log of the outbound
      calls.  The module-level constant [SERPAPI_API_KEY] is an argument
      of [get_tweets]. *)

From Stdlib Require Import ZArith QArith Lia Sorted Permutation.
From stdpp Require Import gmap strings list fin_maps.
From Stdlib Require Import Ascii String.
From Stdlib Require Import PrimFloat.

Local Open Scope string_scope.
Local Open Scope Z_scope.

(** ** Python built-ins *)

Module Py.

(** [x is not None] *)
Definition is_not_None {A} (x : option A) : bool :=
  match x with
  | Some _ => true
  | None => false
  end.

(** *** [str] *)

(** [sub in s] for a non-empty or empty [sub]. *)
Fixpoint contains (sub s : string) : bool :=
  if String.prefix sub s then true
  else match s with
       | EmptyString => false
       | String _ s' => contains sub s'
       end.

(** [s.split(sep)] for a one-character separator: every occurrence
    splits, and the result is never the empty list. *)
Fixpoint split (sep : ascii) (s : string) : list string :=
  match s with
  | EmptyString => [EmptyString]
  | String c s' =>
      if Ascii.eqb c sep then EmptyString :: split sep s'
      else match split sep s' with
           | [] => [String c EmptyString]
           | w :: ws => String c w :: ws
           end
  end.

(** [x in parts] and [parts.index(x)] on a list of strings. *)
Definition mem (x : string) (parts : list string) : bool :=
  existsb (String.eqb x) parts.

Fixpoint index (x : string) (parts : list string) : option nat :=
  match parts with
  | [] => None
  | p :: ps => if String.eqb p x then Some O
               else option_map S (index x ps)
  end.

Definition is_digit (c : ascii) : bool :=
  let n := nat_of_ascii c in (48 <=? n)%nat && (n <=? 57)%nat.

Fixpoint all_digits (s : string) : bool :=
  match s with
  | EmptyString => true
  | String c s' => is_digit c && all_digits s'
  end.

(** [s.isdigit()]: at least one character, and all of them digits
    (the ASCII ones, the only digits of this character set). *)
Definition isdigit (s : string) : bool :=
  match s with
  | EmptyString => false
  | _ => all_digits s
  end.

Definition digit_value (c : ascii) : Z := Z.of_nat (nat_of_ascii c) - 48.

Fixpoint int_acc (acc : Z) (s : string) : Z :=
  match s with
  | EmptyString => acc
  | String c s' => int_acc (10 * acc + digit_value c) s'
  end.

(** The default of [sys.int_max_str_digits]. *)
Definition INT_MAX_STR_DIGITS : nat := 4300.

(** [int(s)] on a string of decimal digits; [None] is the [ValueError]
    of the interpreter for a string longer than the limit. *)
Definition int (s : string) : option Z :=
  if (INT_MAX_STR_DIGITS <? String.length s)%nat then None
  else Some (int_acc 0 s).

(** [s[:n]] *)
Fixpoint take (n : nat) (s : string) : string :=
  match n, s with
  | O, _ => EmptyString
  | _, EmptyString => EmptyString
  | S n', String c s' => String c (take n' s')
  end.

Definition digit_char (d : Z) : ascii := ascii_of_nat (Z.to_nat (48 + d)).

(** The [width] low decimal digits of [n], most significant first. *)
Fixpoint digits (width : nat) (n : Z) (acc : string) : string :=
  match width with
  | O => acc
  | S w => digits w (n / 10) (String (digit_char (n mod 10)) acc)
  end.

Fixpoint decimal_fuel (fuel : nat) (n : Z) (acc : string) : string :=
  match fuel with
  | O => acc
  | S f =>
      let acc' := String (digit_char (n mod 10)) acc in
      if n / 10 =? 0 then acc' else decimal_fuel f (n / 10) acc'
  end.

(** [str(n)] for an integer. *)
Definition str (n : Z) : string :=
  if n <? 0 then String "-"%char (decimal_fuel (S (Z.to_nat (Z.log2 (- n)))) (- n) "")
  else decimal_fuel (S (Z.to_nat (Z.log2 n))) n "".

(** ["%0<width>d" % n] for [0 <= n]: at least [width] digits. *)
Definition zfill (width : nat) (n : Z) : string :=
  let s := str n in
  if (String.length s <? width)%nat then digits width n "" else s.

(** *** [datetime]: the proleptic Gregorian calendar

    [is_leap], [days_before_year], [days_in_month], [days_before_month],
    [ymd2ord] and [ord2ymd] follow the functions of the same names in
    the [datetime] module. *)

Definition is_leap (year : Z) : bool :=
  (year mod 4 =? 0) && (negb (year mod 100 =? 0) || (year mod 400 =? 0)).

Definition days_before_year (year : Z) : Z :=
  let y := year - 1 in y * 365 + y / 4 - y / 100 + y / 400.

Definition DAYS_IN_MONTH (month : Z) : Z :=
  match month with
  | 1 | 3 | 5 | 7 | 8 | 10 | 12 => 31
  | 4 | 6 | 9 | 11 => 30
  | 2 => 28
  | _ => -1
  end.

Definition DAYS_BEFORE_MONTH (month : Z) : Z :=
  match month with
  | 1 => 0 | 2 => 31 | 3 => 59 | 4 => 90 | 5 => 120 | 6 => 151
  | 7 => 181 | 8 => 212 | 9 => 243 | 10 => 273 | 11 => 304 | 12 => 334
  | _ => -1
  end.

Definition days_in_month (year month : Z) : Z :=
  if (month =? 2) && is_leap year then 29 else DAYS_IN_MONTH month.

Definition days_before_month (year month : Z) : Z :=
  DAYS_BEFORE_MONTH month + (if (2 <? month) && is_leap year then 1 else 0).

Definition ymd2ord (year month day : Z) : Z :=
  days_before_year year + days_before_month year month + day.

Definition DI400Y : Z := 146097.
Definition DI100Y : Z := 36524.
Definition DI4Y : Z := 1461.

Definition ord2ymd (n : Z) : Z * Z * Z :=
  let n := n - 1 in
  let n400 := n / DI400Y in let n := n mod DI400Y in
  let year := n400 * 400 + 1 in
  let n100 := n / DI100Y in let n := n mod DI100Y in
  let n4 := n / DI4Y in let n := n mod DI4Y in
  let n1 := n / 365 in let n := n mod 365 in
  let year := year + n100 * 100 + n4 * 4 + n1 in
  if (n1 =? 4) || (n100 =? 4) then (year - 1, 12, 31)
  else
    let leapyear := (n1 =? 3) && (negb (n4 =? 24) || (n100 =? 3)) in
    let month := Z.shiftr (n + 50) 5 in
    let preceding :=
      DAYS_BEFORE_MONTH month + (if (2 <? month) && leapyear then 1 else 0) in
    if n <? preceding then
      let month := month - 1 in
      let preceding :=
        preceding
        - (DAYS_IN_MONTH month + (if (month =? 2) && leapyear then 1 else 0)) in
      (year, month, n - preceding + 1)
    else (year, month, n - preceding + 1).

(** A [date] is its ordinal; [date.min] is 1 and [date.max] 3652059. *)
Definition date : Type := Z.
Definition MAXORDINAL : Z := 3652059.

Definition date_in_range (d : Z) : bool := (1 <=? d) && (d <=? MAXORDINAL).

(** [date(year, month, day)]: [None] is its [ValueError]. *)
Definition make_date (year month day : Z) : option date :=
  if (1 <=? year) && (year <=? 9999) && (1 <=? month) && (month <=? 12)
     && (1 <=? day) && (day <=? days_in_month year month)
  then Some (ymd2ord year month day) else None.

(** [d + timedelta(days=k)]: [None] is its [OverflowError]. *)
Definition date_add_days (d : date) (k : Z) : option date :=
  if date_in_range (d + k) then Some (d + k) else None.

(** [d.isoformat()] *)
Definition date_isoformat (d : date) : string :=
  let '(y, m, dd) := ord2ymd d in
  zfill 4 y ++ "-" ++ zfill 2 m ++ "-" ++ zfill 2 dd.

(** A naive [datetime.datetime]. *)
Record datetime : Type := mk_datetime {
  dt_date : date;
  dt_hour : Z;
  dt_minute : Z;
  dt_second : Z;
  dt_microsecond : Z
}.

(** [dt.isoformat()]: the fraction is printed only when it is not zero. *)
Definition datetime_isoformat (dt : datetime) : string :=
  date_isoformat (dt_date dt) ++ "T" ++ zfill 2 (dt_hour dt) ++ ":"
  ++ zfill 2 (dt_minute dt) ++ ":" ++ zfill 2 (dt_second dt)
  ++ (if dt_microsecond dt =? 0 then ""
      else "." ++ zfill 6 (dt_microsecond dt)).

(** [dt.strftime("%Y%m%d%H%M%S")]; [%Y] is left to the C library,
    which prints the year without padding. *)
Definition datetime_compact (dt : datetime) : string :=
  let '(y, m, dd) := ord2ymd (dt_date dt) in
  str y ++ zfill 2 m ++ zfill 2 dd ++ zfill 2 (dt_hour dt)
  ++ zfill 2 (dt_minute dt) ++ zfill 2 (dt_second dt).

(** Ordinal of 1970-01-01. *)
Definition EPOCH_ORDINAL : Z := 719163.

(** [datetime.utcfromtimestamp(ms / 1000.0)] for an integer number [ms]
    of milliseconds: the quotient is taken exactly.  The source divides
    in binary64 and the library rounds the fraction to the nearest
    microsecond; for a quotient below 2^33 seconds the rounding error of
    the division is under half a microsecond, so the microsecond field
    is the exact one there, which covers every identifier below 2^64.
    [None] stands for the [ValueError], [OverflowError] or [OSError]
    raised when the instant is outside the years 1 to 9999. *)
Definition utcfromtimestamp_ms (ms : Z) : option datetime :=
  let secs := ms / 1000 in
  let us := (ms mod 1000) * 1000 in
  let ordinal := EPOCH_ORDINAL + secs / 86400 in
  let rem := secs mod 86400 in
  if date_in_range ordinal then
    Some {| dt_date := ordinal;
            dt_hour := rem / 3600;
            dt_minute := (rem mod 3600) / 60;
            dt_second := rem mod 60;
            dt_microsecond := us |}
  else None.

(** Milliseconds from 1970-01-01T00:00:00 to [dt], the microseconds
    below the millisecond dropped. *)
Definition datetime_epoch_ms (dt : datetime) : Z :=
  ((dt_date dt - EPOCH_ORDINAL) * 86400 + dt_hour dt * 3600
   + dt_minute dt * 60 + dt_second dt) * 1000
  + dt_microsecond dt / 1000.

(** The fields of a [datetime] are in their ranges. *)
Definition datetime_valid (dt : datetime) : Prop :=
  1 <= dt_date dt <= MAXORDINAL /\ 0 <= dt_hour dt < 24 /\
  0 <= dt_minute dt < 60 /\ 0 <= dt_second dt < 60 /\
  0 <= dt_microsecond dt < 1000000.

(** The first instant of [date.min] and the first one after [date.max],
    in milliseconds from the epoch. *)
Definition MIN_EPOCH_MS : Z := (1 - EPOCH_ORDINAL) * 86400000.
Definition MAX_EPOCH_MS : Z := (MAXORDINAL + 1 - EPOCH_ORDINAL) * 86400000.

(** *** [datetime.strptime(s, "%Y-%m-%d")]

    The format compiles to the regular expression
    [(\d\d\d\d)-(1[0-2]|0[1-9]|[1-9])-(3[0-1]|[1-2]\d|0[1-9]|[1-9]| [1-9])]
    matched at the start of the string; each group below takes the
    continuation of the match, so that a later alternative is tried when
    the rest fails after an earlier one.  Text left after the match and
    a date that does not exist both raise [ValueError], here [None]. *)

Definition in_range (lo hi c : ascii) : bool :=
  let n := nat_of_ascii c in
  (nat_of_ascii lo <=? n)%nat && (n <=? nat_of_ascii hi)%nat.

Definition orelse {A} (x y : option A) : option A :=
  match x with Some _ => x | None => y end.

Definition re_year {A} (k : Z -> string -> option A) (s : string) : option A :=
  match s with
  | String a (String b (String c (String d rest))) =>
      if is_digit a && is_digit b && is_digit c && is_digit d
      then k (1000 * digit_value a + 100 * digit_value b
              + 10 * digit_value c + digit_value d) rest
      else None
  | _ => None
  end.

Definition re_lit {A} (x : ascii) (k : string -> option A) (s : string) : option A :=
  match s with
  | String c rest => if Ascii.eqb c x then k rest else None
  | EmptyString => None
  end.

(** Two characters [a] in [lo1..hi1] and [b] in [lo2..hi2]. *)
Definition re_two {A} (lo1 hi1 lo2 hi2 : ascii)
    (k : Z -> string -> option A) (s : string) : option A :=
  match s with
  | String a (String b rest) =>
      if in_range lo1 hi1 a && in_range lo2 hi2 b
      then k (10 * digit_value a + digit_value b) rest else None
  | _ => None
  end.

Definition re_one {A} (lo hi : ascii)
    (k : Z -> string -> option A) (s : string) : option A :=
  match s with
  | String a rest => if in_range lo hi a then k (digit_value a) rest else None
  | EmptyString => None
  end.

Definition re_month {A} (k : Z -> string -> option A) (s : string) : option A :=
  orelse (re_two "1" "1" "0" "2" k s)
    (orelse (re_two "0" "0" "1" "9" k s) (re_one "1" "9" k s)).

Definition re_day {A} (k : Z -> string -> option A) (s : string) : option A :=
  orelse (re_two "3" "3" "0" "1" k s)
    (orelse (re_two "1" "2" "0" "9" k s)
       (orelse (re_two "0" "0" "1" "9" k s)
          (orelse (re_one "1" "9" k s)
             (re_lit " " (re_one "1" "9" k) s)))).

(** The regular expression: the three numbers and the text after them. *)
Definition re_match (s : string) : option (Z * Z * Z * string) :=
  re_year (fun y =>
    re_lit "-" (re_month (fun m =>
      re_lit "-" (re_day (fun d rest => Some (y, m, d, rest)))))) s.

(** The calendar date parsed from [s], as an ordinal. *)
Definition strptime_date (s : string) : option date :=
  match re_match s with
  | Some (y, m, d, EmptyString) => make_date y m d
  | _ => None
  end.

End Py.

(** ** Exceptions, providers and the handler monad *)

(** What a handler raises: the [HTTPException] it builds itself, or an
    exception of the runtime that nothing catches (the framework answers
    500 to those). *)
Inductive exn : Type :=
  | HTTPException (status_code : Z) (detail : string)
  | Uncaught (kind : string).

Inductive result (A : Type) : Type :=
  | Ok (a : A)
  | Raise (e : exn).
Arguments Ok {A} a.
Arguments Raise {A} e.

(** One row of the data frame returned by [yf.download]: the index (a
    daily timestamp, of which only [idx.date()] is read) and the columns. *)
Record row : Type := mk_row {
  row_date : Py.date;
  Open : Q;
  High : Q;
  Low : Q;
  Close : Q;
  Volume : Q
}.

Definition DataFrame : Type := list row.

(** JSON as the handlers read it. *)
Inductive jval : Type :=
  | JNull
  | JStr (s : string).

Inductive jtop : Type :=
  | TNull
  | TList (items : list (gmap string jval)).

(** A [requests.Response]; [json] is [None] when the body is not JSON, in
    which case [resp.json()] raises. *)
Record response : Type := mk_response {
  status_code : Z;
  text : string;
  json : option (gmap string jtop)
}.

(** [requests.get] answers or raises (time-out, connection error). *)
Inductive transport : Type :=
  | Responded (r : response)
  | Failed (kind : string).

(** The outside world of one request. *)
Record provider : Type := mk_provider {
  yf_download : string -> string -> string -> DataFrame;
  requests_get : string -> list (string * string) -> transport
}.

(** An outbound call, as logged. *)
Inductive call : Type :=
  | CallDownload (symbol start end_ : string)
  | CallGet (url : string) (params : list (string * string)).

#[global] Instance result_ret : MRet result := fun A a => Ok a.

#[global] Instance result_bind : MBind result := fun A B f m =>
  match m with
  | Ok a => f a
  | Raise e => Raise e
  end.

(** [try: x = o  except ValueError: raise e] for a partial operation. *)
Definition expect {A} (e : exn) (o : option A) : result A :=
  match o with
  | Some a => Ok a
  | None => Raise e
  end.

(** A handler reads the provider, appends to the log of calls and returns
    a value or raises. *)
Definition M (A : Type) : Type := provider -> list call -> result A * list call.

#[global] Instance M_ret : MRet M := fun A a _ log => (Ok a, log).

#[global] Instance M_bind : MBind M := fun A B f m env log =>
  match m env log with
  | (Ok a, log') => f a env log'
  | (Raise e, log') => (Raise e, log')
  end.

Definition raise {A} (e : exn) : M A := fun _ log => (Raise e, log).

(** A computation that calls no provider. *)
Definition liftR {A} (r : result A) : M A := fun _ log => (r, log).

Definition or_raise {A} (e : exn) (o : option A) : M A := liftR (expect e o).

Definition download (symbol start end_ : string) : M DataFrame :=
  fun env log =>
    (Ok (yf_download env symbol start end_),
     (log ++ [CallDownload symbol start end_])%list).

Definition http_get (url : string) (params : list (string * string)) : M response :=
  fun env log =>
    let log' := (log ++ [CallGet url params])%list in
    match requests_get env url params with
    | Responded r => (Ok r, log')
    | Failed kind => (Raise (Uncaught kind), log')
    end.

(** Running a handler on a fresh request. *)
Definition run {A} (m : M A) (env : provider) : result A * list call := m env [].

Definition outcome {A} (m : M A) (env : provider) : result A := fst (run m env).

(** A [for] loop that appends one item per turn and stops at the first
    exception. *)
Fixpoint mapR {A B} (f : A -> result B) (l : list A) : result (list B) :=
  match l with
  | [] => Ok []
  | x :: xs => y ← f x; ys ← mapR f xs; mret (y :: ys)
  end.

(** ** [/stocks] *)

Record StockResponse : Type := mk_StockResponse {
  sr_symbol : string;
  sr_date : string;
  sr_close : Q;
  sr_open : option Q;
  sr_high : option Q;
  sr_low : option Q;
  sr_volume : option Q;
  var_day : option Q;
  var_week : option Q;
  var_month : option Q
}.

(** [data.sort_index()]: rows in ascending order of the index, rows of
    the same date in the order they had. *)
Fixpoint insert_row (r : row) (l : DataFrame) : DataFrame :=
  match l with
  | [] => [r]
  | x :: xs =>
      if row_date r <=? row_date x then r :: l else x :: insert_row r xs
  end.

Definition sort_index (data : DataFrame) : DataFrame :=
  fold_right insert_row [] data.

(** The order [sort_index] establishes. *)
Definition by_date (a b : row) : Prop := row_date a <= row_date b.

(** The loop of the source, written twice there:
    [for idx in reversed(data.index): if idx.date() <= d: found = idx; break]. *)
Definition latest_on_or_before (data : DataFrame) (d : Py.date) : option Py.date :=
  List.find (fun idx => idx <=? d) (List.rev (List.map row_date data)).

(** [float(data.loc[idx][column])]: with one row at [idx] the cell, with
    several a [Series] that [float] refuses.  [idx] is taken from the
    index, so that the [KeyError] does not arise in [get_stock]. *)
Definition float_at (data : DataFrame) (idx : Py.date) (column : row -> Q) : result Q :=
  match List.filter (fun r => row_date r =? idx) data with
  | [r] => Ok (column r)
  | [] => Raise (Uncaught "KeyError")
  | _ => Raise (Uncaught "TypeError")
  end.

Definition get_close_at (data : DataFrame) (target_date : Py.date)
    (days_delta : Z) : result (option Q) :=
  ref_date ← expect (Uncaught "OverflowError")
                (Py.date_add_days target_date (- days_delta));
  match latest_on_or_before data ref_date with
  | None => Ok None
  | Some ref_idx => c ← float_at data ref_idx Close; mret (Some c)
  end.

(** [var_rel] on the rational prices of this embedding: the quotient is
    exact where the source rounds.  What the source computes, in
    binary64, is [Binary64.var_rel]. *)
Definition var_rel (curr past : option Q) : option Q :=
  match curr, past with
  | Some c, Some p => if Qeq_bool p 0 then None else Some ((c - p) / p)%Q
  | _, _ => None
  end.

Definition BAD_DATE : exn :=
  HTTPException 400 "Formato de fecha inválido. Usa YYYY-MM-DD.".
Definition NO_DATA : exn :=
  HTTPException 404 "No se encontraron datos para ese símbolo/fecha.".
Definition NO_PRIOR_DATA : exn :=
  HTTPException 404 "No hay datos previos a esa fecha.".

(** What [get_stock] does with the data frame once it is downloaded. *)
Definition stock_metrics (symbol : string) (target_date : Py.date)
    (data : DataFrame) : result StockResponse :=
  match data with
  | [] => Raise NO_DATA
  | _ =>
      let data := sort_index data in
      match latest_on_or_before data target_date with
      | None => Raise NO_PRIOR_DATA
      | Some target_idx =>
          close_today ← float_at data target_idx Close;
          open_today ← float_at data target_idx Open;
          high_today ← float_at data target_idx High;
          low_today ← float_at data target_idx Low;
          volume_today ← float_at data target_idx Volume;
          close_yesterday ← get_close_at data target_date 1;
          close_week ← get_close_at data target_date 7;
          close_month ← get_close_at data target_date 30;
          mret {| sr_symbol := symbol;
                  sr_date := Py.date_isoformat target_date;
                  sr_close := close_today;
                  sr_open := Some open_today;
                  sr_high := Some high_today;
                  sr_low := Some low_today;
                  sr_volume := Some volume_today;
                  var_day := var_rel (Some close_today) close_yesterday;
                  var_week := var_rel (Some close_today) close_week;
                  var_month := var_rel (Some close_today) close_month |}
      end
  end.

Definition get_stock (symbol date : string) : M StockResponse :=
  target_date ← or_raise BAD_DATE (Py.strptime_date date);
  start ← or_raise (Uncaught "OverflowError") (Py.date_add_days target_date (-40));
  end_ ← or_raise (Uncaught "OverflowError") (Py.date_add_days target_date 1);
  data ← download symbol (Py.date_isoformat start) (Py.date_isoformat end_);
  liftR (stock_metrics symbol target_date data).

(** The data frame a request for the day [d] receives. *)
Definition fetched (env : provider) (symbol : string) (d : Py.date) : DataFrame :=
  yf_download env symbol (Py.date_isoformat (d - 40)) (Py.date_isoformat (d + 1)).


(** ** [/news] *)

Record NewsItem : Type := mk_NewsItem {
  ni_title : string;
  ni_url : string;
  ni_source : option string;
  ni_language : option string;
  ni_datetime : option string;
  ni_snippet : option string
}.

Record NewsResponse : Type := mk_NewsResponse {
  nr_keyword : string;
  nr_date : string;
  nr_articles : list NewsItem
}.

(** [a.get(key, dflt)] *)
Definition dict_get {V} (a : gmap string V) (key : string) (dflt : V) : V :=
  default dflt (a !! key).

(** Validation of a model field declared [str]: [None] is refused. *)
Definition required_str (v : jval) : result string :=
  match v with
  | JStr s => Ok s
  | JNull => Raise (Uncaught "ValidationError")
  end.

(** A field declared [Optional[str]]. *)
Definition optional_str (v : jval) : option string :=
  match v with
  | JStr s => Some s
  | JNull => None
  end.

Definition news_item (a : gmap string jval) : result NewsItem :=
  title ← required_str (dict_get a "title" (JStr ""));
  url ← required_str (dict_get a "url" (JStr ""));
  mret {| ni_title := title;
          ni_url := url;
          ni_source := optional_str (dict_get a "sourceCountry" JNull);
          ni_language := optional_str (dict_get a "language" JNull);
          ni_datetime := optional_str (dict_get a "seendate" JNull);
          ni_snippet := optional_str (dict_get a "title" JNull) |}.

Definition GDELT_URL : string := "https://api.gdeltproject.org/api/v2/doc/doc".
Definition GDELT_ERROR : exn := HTTPException 502 "Error consultando GDELT.".

(** The query sent to the provider for the day [target_date]. *)
Definition news_params (keyword : string) (target_date : Py.date)
    (maxrecords : Z) : list (string * string) :=
  let start_dt := Py.mk_datetime target_date 0 0 0 0 in
  let end_dt := Py.mk_datetime target_date 23 59 59 0 in
  [("query", keyword); ("mode", "artlist"); ("maxrecords", Py.str maxrecords);
   ("format", "json");
   ("startdatetime", Py.datetime_compact start_dt);
   ("enddatetime", Py.datetime_compact end_dt)].

(** [data.get("articles", [])] *)
Definition raw_articles_of (data : gmap string jtop) : jtop :=
  dict_get data "articles" (TList []).

Definition get_news (keyword date : string) (maxrecords : Z) : M NewsResponse :=
  target_date ← or_raise BAD_DATE (Py.strptime_date date);
  resp ← http_get GDELT_URL (news_params keyword target_date maxrecords);
  if negb (status_code resp =? 200) then raise GDELT_ERROR
  else
    data ← or_raise (Uncaught "JSONDecodeError") (json resp);
    match raw_articles_of data with
    | TNull => raise (Uncaught "TypeError")
    | TList raw_articles =>
        articles ← liftR (mapR news_item raw_articles);
        mret {| nr_keyword := keyword; nr_date := date; nr_articles := articles |}
    end.

(** ** [/tweets] *)

Record TweetItem : Type := mk_TweetItem {
  ti_user : string;
  ti_text : string;
  ti_created_at : string;
  ti_url : option string
}.

Record TweetsResponse : Type := mk_TweetsResponse {
  tr_keyword : string;
  tr_date : string;
  tr_tweets : list TweetItem
}.

Definition twitter_epoch_ms : Z := 1288834974657.

(** The [try] of the source catches every exception of the conversion and
    returns [None]. *)
Definition tweet_id_to_datetime (tweet_id : Z) : option Py.datetime :=
  let timestamp_ms := Z.shiftr tweet_id 22 + twitter_epoch_ms in
  Py.utcfromtimestamp_ms timestamp_ms.

(** [r.get(key, "") or ""] *)
Definition get_str (r : gmap string jval) (key : string) : string :=
  match dict_get r key (JStr "") with
  | JStr s => s
  | JNull => ""
  end.

(** [a or b] on strings. *)
Definition str_or (a b : string) : string :=
  match a with
  | EmptyString => b
  | _ => a
  end.

(** The test that lets a result through:
    [not ("x.com" not in link and "twitter.com" not in link and "X" not in source)]. *)
Definition platform_ok (link source : string) : bool :=
  negb (negb (Py.contains "x.com" link) && negb (Py.contains "twitter.com" link)
        && negb (Py.contains "X" source)).

(** The identifier read from the link, [None] when there is none; the
    [try] of the source catches the [ValueError] of [parts.index] and of
    [int]. *)
Definition extract_tweet_id (link : string) : option Z :=
  let parts := Py.split "/" link in
  if Py.mem "status" parts then
    match Py.index "status" parts with
    | Some idx =>
        match parts !! S idx with
        | Some segment =>
            let tweet_id_str := List.hd "" (Py.split "?" segment) in
            if Py.isdigit tweet_id_str then Py.int tweet_id_str else None
        | None => None
        end
    | None => None
    end
  else None.

(** [tweet_dt] of the source. *)
Definition derived_timestamp (link : string) : option Py.datetime :=
  match extract_tweet_id link with
  | Some tweet_id => tweet_id_to_datetime tweet_id
  | None => None
  end.

(** [tweet_date_ok] of the source, once [tweet_dt] is known. *)
Definition tweet_date_ok (date : string) (tweet_dt : option Py.datetime) : bool :=
  match tweet_dt with
  | Some dt =>
      match Py.strptime_date date with
      | Some target_date => Py.dt_date dt =? target_date
      | None => true
      end
  | None => true
  end.

(** One turn of the loop over the organic results: [None] when the turn
    ends in [continue], the appended item otherwise. *)
Definition tweet_candidate (date : string) (r : gmap string jval) : option TweetItem :=
  let link := get_str r "link" in
  let source := get_str r "source" in
  let snippet := get_str r "snippet" in
  let title := get_str r "title" in
  if negb (platform_ok link source) then None
  else
    let tweet_dt := derived_timestamp link in
    let created_at_str :=
      match tweet_dt with
      | Some dt => Py.datetime_isoformat dt
      | None => ""
      end in
    if Py.is_not_None tweet_dt && negb (tweet_date_ok date tweet_dt) then None
    else Some {| ti_user := str_or title (str_or source "desconocido");
                 ti_text := str_or snippet title;
                 ti_created_at := created_at_str;
                 ti_url := Some link |}.

Definition SERPAPI_URL : string := "https://serpapi.com/search.json".
Definition MISSING_KEY : exn :=
  HTTPException 500 "Falta configurar SERPAPI_API_KEY en el servidor.".

Definition serpapi_error (resp : response) : exn :=
  HTTPException 502
    ("Error SerpAPI " ++ Py.str (status_code resp) ++ ": "
     ++ match text resp with
        | EmptyString => "Sin respuesta"
        | t => Py.take 200 t
        end).

Definition tweets_params (SERPAPI_API_KEY keyword : string) (max_results : Z)
    : list (string * string) :=
  [("engine", "google");
   ("q", keyword ++ " site:x.com OR site:twitter.com");
   ("api_key", SERPAPI_API_KEY);
   ("num", Py.str max_results)].

(** [data.get("organic_results", []) or []] *)
Definition organic_results (data : gmap string jtop) : list (gmap string jval) :=
  match dict_get data "organic_results" (TList []) with
  | TList l => l
  | TNull => []
  end.

(** The handler; the module-level constant [SERPAPI_API_KEY] is its first
    argument. *)
Definition get_tweets (SERPAPI_API_KEY keyword date : string) (max_results : Z)
    : M TweetsResponse :=
  match SERPAPI_API_KEY with
  | EmptyString => raise MISSING_KEY
  | _ =>
      resp ← http_get SERPAPI_URL (tweets_params SERPAPI_API_KEY keyword max_results);
      if negb (status_code resp =? 200) then raise (serpapi_error resp)
      else
        data ← or_raise (Uncaught "JSONDecodeError") (json resp);
        let organic := organic_results data in
        mret {| tr_keyword := keyword;
                tr_date := date;
                tr_tweets := omap (tweet_candidate date) organic |}
  end.

(** ** Sample providers *)
Module Sample.

(** An organic result that points to a profile, not to a post. *)
Definition profile : gmap string jval :=
  {[ "link" := JStr "https://x.com/ECOPETROL_SA";
     "title" := JStr "Ecopetrol (@ECOPETROL_SA)" ]}.

(** An organic result that points to a post of 2020-03-02. *)
Definition post : gmap string jval :=
  {[ "link" := JStr "https://x.com/u/status/1234567890123456789?s=20";
     "snippet" := JStr "Resultados del trimestre" ]}.

(** An organic result from another site. *)
Definition elsewhere : gmap string jval :=
  {[ "link" := JStr "https://example.org/status/12";
     "source" := JStr "Example" ]}.

Definition search (status : Z) (organic : list (gmap string jval)) : provider :=
  {| yf_download := fun _ _ _ => [];
     requests_get := fun _ _ =>
       Responded {| status_code := status;
                    text := "";
                    json := Some {[ "organic_results" := TList organic ]} |} |}.

(** A week of January 2024 as the price provider could return it: the
    trading days 10, 11, 12 and 15, out of order; the 13th and 14th are
    the week-end.  Ordinal 738900 is 2024-01-15. *)
Definition week : DataFrame :=
  [ mk_row 738900 14 15 13 15 1000;
    mk_row 738895 10 11 9 11 700;
    mk_row 738897 12 14 12 13 900;
    mk_row 738896 11 12 10 12 800 ].

Definition market : provider :=
  {| yf_download := fun _ _ _ => week;
     requests_get := fun _ _ => Failed "ConnectionError" |}.

(** A provider with nothing to return. *)
Definition silent : provider :=
  {| yf_download := fun _ _ _ => [];
     requests_get := fun _ _ => Failed "ConnectionError" |}.

(** A provider whose only row is Monday 2024-01-15. *)
Definition late : provider :=
  {| yf_download := fun _ _ _ => [mk_row 738900 14 15 13 15 1000];
     requests_get := fun _ _ => Failed "ConnectionError" |}.

(** A news provider that answers [status] with the given article list. *)
Definition gdelt (status : Z) (articles : list (gmap string jval)) : provider :=
  {| yf_download := fun _ _ _ => [];
     requests_get := fun _ _ =>
       Responded {| status_code := status;
                    text := "";
                    json := Some {[ "articles" := TList articles ]} |} |}.

(** A raw article with a title and a snippet of its own, and one with no
    title. *)
Definition article : gmap string jval :=
  {[ "title" := JStr "Ecopetrol sube";
     "url" := JStr "https://example.org/a";
     "snippet" := JStr "La accion cerro al alza" ]}.

Definition untitled : gmap string jval :=
  {[ "url" := JStr "https://example.org/b";
     "snippet" := JStr "Sin titulo" ]}.

End Sample.

(** ** The calendar, in pieces

    The last step of [Py.ord2ymd]: the month and the day of the month of
    the day [n] (from 0) of a year, leap or not. *)
Definition month_day (n : Z) (leapyear : bool) : Z * Z :=
  let month := Z.shiftr (n + 50) 5 in
  let preceding :=
    Py.DAYS_BEFORE_MONTH month + (if (2 <? month) && leapyear then 1 else 0) in
  if n <? preceding then
    let month := month - 1 in
    let preceding :=
      preceding
      - (Py.DAYS_IN_MONTH month + (if (month =? 2) && leapyear then 1 else 0)) in
    (month, n - preceding + 1)
  else (month, n - preceding + 1).

(** ** More sample providers *)
Module Cases.

(** The price provider of [Sample.market], its rows in the opposite
    order. *)
Definition market_reversed : provider :=
  {| yf_download := fun _ _ _ => List.rev Sample.week;
     requests_get := fun _ _ => Failed "ConnectionError" |}.

(** A raw article whose title is null. *)
Definition nameless : gmap string jval :=
  {[ "title" := JNull; "url" := JStr "https://example.org/c" ]}.

(** A search provider that answers [status] with the body [body], which
    is not JSON. *)
Definition failing_search (status : Z) (body : string) : provider :=
  {| yf_download := fun _ _ _ => [];
     requests_get := fun _ _ =>
       Responded {| status_code := status; text := body; json := None |} |}.

(** A provider that answers 200 with the JSON object [data]. *)
Definition answering (data : gmap string jtop) : provider :=
  {| yf_download := fun _ _ _ => [];
     requests_get := fun _ _ =>
       Responded {| status_code := 200; text := ""; json := Some data |} |}.

End Cases.

(** ** [/stocks] with the prices in binary64

    [get_stock] once more, the cells of the data frame and the fields of
    the response being the 64-bit floats of the source: [curr - past],
    [... / past] and [past == 0] are the operations of IEEE 754, with
    their rounding, their two zeros, their infinities and their NaN.  The
    provider is the function that answers [yf.download]. *)
Module Binary64.

Record row : Type := mk_row {
  row_date : Py.date;
  Open : float;
  High : float;
  Low : float;
  Close : float;
  Volume : float
}.

Definition DataFrame : Type := list row.

Record StockResponse : Type := mk_StockResponse {
  sr_symbol : string;
  sr_date : string;
  sr_close : float;
  sr_open : option float;
  sr_high : option float;
  sr_low : option float;
  sr_volume : option float;
  var_day : option float;
  var_week : option float;
  var_month : option float
}.

Fixpoint insert_row (r : row) (l : DataFrame) : DataFrame :=
  match l with
  | [] => [r]
  | x :: xs =>
      if row_date r <=? row_date x then r :: l else x :: insert_row r xs
  end.

Definition sort_index (data : DataFrame) : DataFrame :=
  fold_right insert_row [] data.

Definition latest_on_or_before (data : DataFrame) (d : Py.date) : option Py.date :=
  List.find (fun idx => idx <=? d) (List.rev (List.map row_date data)).

Definition float_at (data : DataFrame) (idx : Py.date) (column : row -> float)
    : result float :=
  match List.filter (fun r => row_date r =? idx) data with
  | [r] => Ok (column r)
  | [] => Raise (Uncaught "KeyError")
  | _ => Raise (Uncaught "TypeError")
  end.

Definition get_close_at (data : DataFrame) (target_date : Py.date)
    (days_delta : Z) : result (option float) :=
  ref_date ← expect (Uncaught "OverflowError")
                (Py.date_add_days target_date (- days_delta));
  match latest_on_or_before data ref_date with
  | None => Ok None
  | Some ref_idx => c ← float_at data ref_idx Close; mret (Some c)
  end.

(** [past == 0] is the comparison of floats: true of both zeros, false
    of NaN. *)
Definition var_rel (curr past : option float) : option float :=
  match curr, past with
  | Some c, Some p =>
      if PrimFloat.eqb p 0%float then None else Some ((c - p) / p)%float
  | _, _ => None
  end.

Definition stock_metrics (symbol : string) (target_date : Py.date)
    (data : DataFrame) : result StockResponse :=
  match data with
  | [] => Raise NO_DATA
  | _ =>
      let data := sort_index data in
      match latest_on_or_before data target_date with
      | None => Raise NO_PRIOR_DATA
      | Some target_idx =>
          close_today ← float_at data target_idx Close;
          open_today ← float_at data target_idx Open;
          high_today ← float_at data target_idx High;
          low_today ← float_at data target_idx Low;
          volume_today ← float_at data target_idx Volume;
          close_yesterday ← get_close_at data target_date 1;
          close_week ← get_close_at data target_date 7;
          close_month ← get_close_at data target_date 30;
          mret {| sr_symbol := symbol;
                  sr_date := Py.date_isoformat target_date;
                  sr_close := close_today;
                  sr_open := Some open_today;
                  sr_high := Some high_today;
                  sr_low := Some low_today;
                  sr_volume := Some volume_today;
                  var_day := var_rel (Some close_today) close_yesterday;
                  var_week := var_rel (Some close_today) close_week;
                  var_month := var_rel (Some close_today) close_month |}
      end
  end.

Definition get_stock (yf_download : string -> string -> string -> DataFrame)
    (symbol date : string) : result StockResponse :=
  target_date ← expect BAD_DATE (Py.strptime_date date);
  start ← expect (Uncaught "OverflowError") (Py.date_add_days target_date (-40));
  end_ ← expect (Uncaught "OverflowError") (Py.date_add_days target_date 1);
  stock_metrics symbol target_date
    (yf_download symbol (Py.date_isoformat start) (Py.date_isoformat end_)).

(** The data frame a request for the day [d] receives. *)
Definition fetched (yf_download : string -> string -> string -> DataFrame)
    (symbol : string) (d : Py.date) : DataFrame :=
  yf_download symbol (Py.date_isoformat (d - 40)) (Py.date_isoformat (d + 1)).

(** The week of [Sample.week], in floats. *)
Definition week : DataFrame :=
  [ mk_row 738900 14 15 13 15 1000;
    mk_row 738895 10 11 9 11 700;
    mk_row 738897 12 14 12 13 900;
    mk_row 738896 11 12 10 12 800 ].

End Binary64.

(** * Properties *)

(** ** The model on the examples of the specification *)

Example strptime_examples :
  Py.strptime_date "2024-01-15" = Some 738900 /\
  Py.strptime_date "2024-1-5" = Py.strptime_date "2024-01-05" /\
  Py.strptime_date "2023-02-29" = None /\
  Py.strptime_date "2024-02-29" = Some 738945 /\
  Py.strptime_date "2024-01-151" = None /\
  Py.strptime_date "0000-01-01" = None.
Proof. repeat split. Qed.

Example isoformat_examples :
  Py.date_isoformat 738900 = "2024-01-15" /\
  Py.date_isoformat 1 = "0001-01-01" /\
  Py.date_isoformat Py.MAXORDINAL = "9999-12-31" /\
  Py.date_isoformat Py.EPOCH_ORDINAL = "1970-01-01".
Proof. repeat split. Qed.

(** Monday 2024-01-15: the day before is Sunday, the look-back of one day
    lands on Friday's close 13, and the week before has no row. *)
Example get_stock_monday :
  exists resp,
    run (get_stock "EC" "2024-01-15") Sample.market
      = (Ok resp, [CallDownload "EC" "2023-12-06" "2024-01-16"]) /\
    sr_date resp = "2024-01-15" /\ sr_close resp = 15%Q /\
    var_day resp = Some (2 # 13)%Q /\ var_week resp = None.
Proof. eexists. split; [vm_compute; reflexivity|]. repeat split. Qed.

(** ** The handler monad *)

Lemma run_bind {A B} (m : M A) (f : A -> M B) env :
  run (m ≫= f) env =
  match run m env with
  | (Ok a, log) => f a env log
  | (Raise e, log) => (Raise e, log)
  end.
Proof. reflexivity. Qed.

Lemma expect_Ok {A} (e : exn) (o : option A) (a : A) :
  expect e o = Ok a <-> o = Some a.
Proof. destruct o; simpl; split; congruence. Qed.

(** ** Sorting the data frame and scanning it backwards *)

Section SortIndex.

Lemma insert_row_perm r l : Permutation (r :: l) (insert_row r l).
Proof.
  induction l as [|x xs IH]; simpl; [reflexivity|].
  destruct (row_date r <=? row_date x); [reflexivity|].
  rewrite perm_swap. now apply perm_skip.
Qed.

Lemma sort_index_perm data : Permutation data (sort_index data).
Proof.
  induction data as [|r l IH]; simpl; [constructor|].
  etransitivity; [apply perm_skip, IH | apply insert_row_perm].
Qed.

Lemma sort_index_In x data : In x (sort_index data) <-> In x data.
Proof.
  split; apply Permutation_in;
    [symmetry|]; apply sort_index_perm.
Qed.

Lemma sort_index_dates_perm data :
  Permutation (List.map row_date data) (List.map row_date (sort_index data)).
Proof. apply Permutation_map, sort_index_perm. Qed.

Lemma insert_row_sorted r l :
  StronglySorted by_date l -> StronglySorted by_date (insert_row r l).
Proof.
  induction 1 as [|x xs Hxs IH Hall]; simpl.
  - repeat constructor.
  - destruct (Z.leb_spec (row_date r) (row_date x)) as [Hle|Hgt].
    + constructor; [now constructor|].
      constructor; [exact Hle|].
      rewrite List.Forall_forall in Hall |- *. intros y Hy.
      specialize (Hall y Hy). unfold by_date in *; lia.
    + constructor; [exact IH|].
      rewrite List.Forall_forall. intros y Hy.
      apply (Permutation_in _ (Permutation_sym (insert_row_perm r xs))) in Hy.
      destruct Hy as [<-|Hy].
      * unfold by_date; lia.
      * rewrite List.Forall_forall in Hall. now apply Hall.
Qed.

Lemma sort_index_sorted data : StronglySorted by_date (sort_index data).
Proof.
  induction data as [|r l IH]; simpl; [constructor|].
  now apply insert_row_sorted.
Qed.

Lemma sort_index_nil data : sort_index data = [] -> data = [].
Proof.
  intros H. apply Permutation_nil. rewrite <- H. symmetry. apply sort_index_perm.
Qed.

End SortIndex.

Section Scan.

Lemma find_snoc {A} (p : A -> bool) (l : list A) (a : A) :
  List.find p (l ++ [a])%list =
  match List.find p l with
  | Some x => Some x
  | None => if p a then Some a else None
  end.
Proof.
  induction l as [|x xs IH]; simpl; [reflexivity|].
  destruct (p x); [reflexivity | exact IH].
Qed.

(** Whatever the order of the rows, a date found is the date of a row,
    on or before the bound. *)
Lemma latest_Some_In data d r :
  latest_on_or_before data d = Some r ->
  r <= d /\ exists x, In x data /\ row_date x = r.
Proof.
  unfold latest_on_or_before. intros H.
  apply List.find_some in H as [Hin Hle].
  apply Z.leb_le in Hle. split; [exact Hle|].
  apply in_rev in Hin. apply in_map_iff in Hin as (x & Hx & Hin).
  now exists x.
Qed.

Lemma latest_None data d :
  latest_on_or_before data d = None <->
  forall x, In x data -> d < row_date x.
Proof.
  unfold latest_on_or_before. split.
  - intros H x Hx.
    pose proof (List.find_none _ _ H (row_date x)) as Hn.
    simpl in Hn. apply Z.leb_gt. apply Hn.
    rewrite <- in_rev. now apply in_map.
  - intros H.
    destruct (List.find _ _) as [r|] eqn:E; [|reflexivity].
    apply List.find_some in E as [Hin Hle]. apply Z.leb_le in Hle.
    apply in_rev in Hin. apply in_map_iff in Hin as (x & Hx & Hin).
    specialize (H x Hin). lia.
Qed.

(** On a frame in ascending order the date found is the latest one. *)
Lemma latest_sorted_max data d r :
  StronglySorted by_date data ->
  latest_on_or_before data d = Some r ->
  forall x, In x data -> row_date x <= d -> row_date x <= r.
Proof.
  unfold latest_on_or_before.
  induction 1 as [|a l Hl IH Hall]; simpl; [discriminate|].
  rewrite find_snoc. intros H x [<-|Hx] Hxd.
  - destruct (List.find _ _) as [r'|] eqn:E.
    + injection H as <-.
      apply List.find_some in E as [Hin _].
      apply in_rev in Hin. apply in_map_iff in Hin as (y & <- & Hy).
      rewrite List.Forall_forall in Hall. now apply Hall.
    + destruct (row_date a <=? d); [injection H as <-; lia | discriminate].
  - destruct (List.find _ _) as [r'|] eqn:E.
    + injection H as <-. now apply IH.
    + pose proof (List.find_none _ _ E (row_date x)) as Hn. simpl in Hn.
      rewrite <- in_rev in Hn. specialize (Hn (in_map _ _ _ Hx)).
      apply Z.leb_gt in Hn. lia.
Qed.

Lemma latest_Some_exists data d x :
  In x data -> row_date x <= d -> exists r, latest_on_or_before data d = Some r.
Proof.
  intros Hx Hle.
  destruct (latest_on_or_before data d) as [r|] eqn:E; [now exists r|].
  pose proof (proj1 (latest_None data d) E x Hx). lia.
Qed.


End Scan.

(** ** [/stocks] *)

Section Stocks.

Lemma date_add_days_Some d k :
  1 <= d + k <= Py.MAXORDINAL -> Py.date_add_days d k = Some (d + k).
Proof.
  intros H. unfold Py.date_add_days, Py.date_in_range.
  destruct (Z.leb_spec 1 (d + k)); [|lia].
  destruct (Z.leb_spec (d + k) Py.MAXORDINAL); [reflexivity|lia].
Qed.

Lemma date_add_days_inv d k d' :
  Py.date_add_days d k = Some d' -> d' = d + k /\ 1 <= d + k <= Py.MAXORDINAL.
Proof.
  unfold Py.date_add_days, Py.date_in_range.
  destruct (Z.leb_spec 1 (d + k)); simpl; [|discriminate].
  destruct (Z.leb_spec (d + k) Py.MAXORDINAL); [|discriminate].
  intros [= <-]. lia.
Qed.

(** The run of the handler: the date, the window, one download, and the
    computation on the frame. *)
Lemma get_stock_run env symbol date :
  run (get_stock symbol date) env =
  match Py.strptime_date date with
  | None => (Raise BAD_DATE, [])
  | Some d =>
      match Py.date_add_days d (-40), Py.date_add_days d 1 with
      | Some start, Some end_ =>
          (stock_metrics symbol d
             (yf_download env symbol (Py.date_isoformat start)
                (Py.date_isoformat end_)),
           [CallDownload symbol (Py.date_isoformat start)
              (Py.date_isoformat end_)])
      | _, _ => (Raise (Uncaught "OverflowError"), [])
      end
  end.
Proof.
  unfold get_stock. rewrite run_bind. unfold or_raise at 1, liftR, run.
  destruct (Py.strptime_date date) as [d|]; simpl; [|reflexivity].
  unfold mbind, M_bind, or_raise, liftR.
  destruct (Py.date_add_days d (-40)) as [start|]; simpl; [|reflexivity].
  destruct (Py.date_add_days d 1) as [end_|]; simpl; reflexivity.
Qed.

Lemma get_stock_in_window env symbol date d :
  Py.strptime_date date = Some d -> 40 < d < Py.MAXORDINAL ->
  run (get_stock symbol date) env =
  (stock_metrics symbol d (fetched env symbol d),
   [CallDownload symbol (Py.date_isoformat (d - 40)) (Py.date_isoformat (d + 1))]).
Proof.
  intros Hd Hr. rewrite get_stock_run, Hd.
  rewrite (date_add_days_Some d (-40)), (date_add_days_Some d 1) by lia.
  reflexivity.
Qed.

Lemma filter_unique_date (data : DataFrame) (r : row) :
  List.NoDup (List.map row_date data) -> In r data ->
  List.filter (fun x => row_date x =? row_date r) data = [r].
Proof.
  induction data as [|x xs IH]; simpl; [tauto|].
  intros Hnd Hin. apply NoDup_cons_iff in Hnd as [Hx Hnd].
  assert (Hfresh : forall y, In y xs -> row_date y = row_date x ->
            False).
  { intros y Hy Heq. apply Hx. rewrite <- Heq. now apply in_map. }
  destruct Hin as [->|Hin].
  - rewrite Z.eqb_refl. f_equal.
    clear IH Hx Hnd. induction xs as [|y ys IHy]; simpl; [reflexivity|].
    destruct (Z.eqb_spec (row_date y) (row_date r)) as [E|_].
    + exfalso. apply (Hfresh y); [now left|exact E].
    + apply IHy. intros z Hz. apply Hfresh. now right.
  - destruct (Z.eqb_spec (row_date x) (row_date r)) as [E|_].
    + exfalso. apply (Hfresh r Hin). now symmetry.
    + now apply IH.
Qed.

Lemma float_at_unique (data : DataFrame) (r : row) (column : row -> Q) :
  List.NoDup (List.map row_date data) -> In r data ->
  float_at data (row_date r) column = Ok (column r).
Proof.
  intros Hnd Hin. unfold float_at. now rewrite filter_unique_date.
Qed.

Lemma float_at_inv (data : DataFrame) idx (column : row -> Q) q :
  float_at data idx column = Ok q ->
  exists r, List.filter (fun x => row_date x =? idx) data = [r]
            /\ q = column r.
Proof.
  unfold float_at. destruct (List.filter _ data) as [|r [|? ?]]; try discriminate.
  intros [= <-]. now exists r.
Qed.

Lemma get_close_at_total (data : DataFrame) d k :
  List.NoDup (List.map row_date data) -> 1 <= d - k <= Py.MAXORDINAL ->
  exists c, get_close_at data d k = Ok c.
Proof.
  intros Hnd Hr. unfold get_close_at.
  rewrite (date_add_days_Some d (- k)) by lia. simpl.
  destruct (latest_on_or_before data (d + - k)) as [idx|] eqn:E;
    [|now exists None].
  apply latest_Some_In in E as (_ & x & Hx & <-).
  rewrite (float_at_unique _ _ _ Hnd Hx). simpl. now eexists.
Qed.

Lemma sort_index_NoDup data :
  List.NoDup (List.map row_date data) -> List.NoDup (List.map row_date (sort_index data)).
Proof. apply Permutation_NoDup, sort_index_dates_perm. Qed.

End Stocks.

Section StocksMetrics.

Variables (symbol : string) (d : Py.date).

Lemma stock_metrics_empty : stock_metrics symbol d [] = Raise NO_DATA.
Proof. reflexivity. Qed.

Lemma stock_metrics_no_prior data :
  data <> [] -> (forall x, In x data -> d < row_date x) ->
  stock_metrics symbol d data = Raise NO_PRIOR_DATA.
Proof.
  intros Hne Hall. unfold stock_metrics.
  destruct data as [|r0 l]; [congruence|]. cbv iota.
  remember (sort_index (r0 :: l)) as sorted eqn:Es.
  assert (E : latest_on_or_before sorted d = None).
  { apply latest_None. intros x Hx. apply Hall.
    subst sorted. now apply sort_index_In. }
  now rewrite E.
Qed.

(** What a frame with a row on or before the day gives: never a raised
    [HTTPException], and on success the cells of the latest such row. *)
Lemma stock_metrics_prior data x :
  In x data -> row_date x <= d ->
  exists idx,
    latest_on_or_before (sort_index data) d = Some idx /\
    (forall e, stock_metrics symbol d data = Raise e ->
               exists kind, e = Uncaught kind) /\
    (forall resp, stock_metrics symbol d data = Ok resp ->
       exists c o h l v cy cw cm,
         float_at (sort_index data) idx Close = Ok c /\
         float_at (sort_index data) idx Open = Ok o /\
         float_at (sort_index data) idx High = Ok h /\
         float_at (sort_index data) idx Low = Ok l /\
         float_at (sort_index data) idx Volume = Ok v /\
         get_close_at (sort_index data) d 1 = Ok cy /\
         get_close_at (sort_index data) d 7 = Ok cw /\
         get_close_at (sort_index data) d 30 = Ok cm /\
         resp = {| sr_symbol := symbol;
                   sr_date := Py.date_isoformat d;
                   sr_close := c;
                   sr_open := Some o;
                   sr_high := Some h;
                   sr_low := Some l;
                   sr_volume := Some v;
                   var_day := var_rel (Some c) cy;
                   var_week := var_rel (Some c) cw;
                   var_month := var_rel (Some c) cm |}).
Proof.
  intros Hx Hle.
  assert (Hx' : In x (sort_index data)) by now apply sort_index_In.
  destruct (latest_Some_exists _ _ _ Hx' Hle) as [idx Hidx].
  exists idx. split; [exact Hidx|].
  unfold stock_metrics.
  destruct data as [|r0 l0]; [contradiction|]. cbv iota.
  remember (sort_index (r0 :: l0)) as sorted eqn:Es.
  rewrite Hidx. clear Hx Hx' Es.
  assert (Hf : forall column, (exists q, float_at sorted idx column = Ok q) \/
                 (exists kind, float_at sorted idx column = Raise (Uncaught kind))).
  { intros column. unfold float_at.
    destruct (List.filter _ sorted) as [|r [|? ?]]; eauto. }
  assert (Hg : forall k, (exists q, get_close_at sorted d k = Ok q) \/
                 (exists kind, get_close_at sorted d k = Raise (Uncaught kind))).
  { intros k. unfold get_close_at.
    destruct (Py.date_add_days d (- k)) as [ref|]; simpl; [|eauto].
    destruct (latest_on_or_before sorted ref) as [i|]; [|eauto].
    unfold float_at.
    destruct (List.filter _ sorted) as [|r [|? ?]]; simpl; eauto. }
  destruct (Hf Close) as [[c Ec]|[kc Ec]]; rewrite Ec; simpl;
    [|split; [intros e [= <-]; eauto | discriminate]].
  destruct (Hf Open) as [[o Eo]|[ko Eo]]; rewrite Eo; simpl;
    [|split; [intros e [= <-]; eauto | discriminate]].
  destruct (Hf High) as [[h Eh]|[kh Eh]]; rewrite Eh; simpl;
    [|split; [intros e [= <-]; eauto | discriminate]].
  destruct (Hf Low) as [[l El]|[kl El]]; rewrite El; simpl;
    [|split; [intros e [= <-]; eauto | discriminate]].
  destruct (Hf Volume) as [[v Ev]|[kv Ev]]; rewrite Ev; simpl;
    [|split; [intros e [= <-]; eauto | discriminate]].
  destruct (Hg 1) as [[cy Ey]|[ky Ey]]; rewrite Ey; simpl;
    [|split; [intros e [= <-]; eauto | discriminate]].
  destruct (Hg 7) as [[cw Ew]|[kw Ew]]; rewrite Ew; simpl;
    [|split; [intros e [= <-]; eauto | discriminate]].
  destruct (Hg 30) as [[cm Em]|[km Em]]; rewrite Em; simpl;
    [|split; [intros e [= <-]; eauto | discriminate]].
  split; [discriminate|].
  intros resp [= <-]. exists c, o, h, l, v, cy, cw, cm.
  repeat split; reflexivity.
Qed.

End StocksMetrics.

Section StocksEndpoint.

Lemma stock_metrics_Ok_inv symbol d data resp :
  stock_metrics symbol d data = Ok resp ->
  exists x, In x data /\ row_date x <= d.
Proof.
  unfold stock_metrics. destruct data as [|r0 l0]; [discriminate|]. cbv iota.
  remember (sort_index (r0 :: l0)) as sorted eqn:Es.
  destruct (latest_on_or_before sorted d) as [idx|] eqn:E; [|discriminate].
  intros _. apply latest_Some_In in E as (Hle & x & Hx & <-).
  exists x. split; [|exact Hle]. subst sorted.
  exact (proj1 (sort_index_In _ _) Hx).
Qed.

Lemma get_stock_Ok_inv env symbol date resp :
  outcome (get_stock symbol date) env = Ok resp ->
  exists d, Py.strptime_date date = Some d /\ 40 < d < Py.MAXORDINAL /\
            stock_metrics symbol d (fetched env symbol d) = Ok resp.
Proof.
  unfold outcome. rewrite get_stock_run.
  destruct (Py.strptime_date date) as [d|]; [|discriminate].
  destruct (Py.date_add_days d (-40)) as [start|] eqn:Es; [|discriminate].
  destruct (Py.date_add_days d 1) as [end_|] eqn:Ee; [|discriminate].
  apply date_add_days_inv in Es as [-> Hs], Ee as [-> He].
  simpl. intros H. exists d. repeat split; try lia. exact H.
Qed.


End StocksEndpoint.

(** C8.  Once the series is fetched (the date parses and its window of
    -40/+1 days exists), [/stocks] raises the 404 [NO_DATA] when the
    series is empty, the 404 [NO_PRIOR_DATA] when it is not empty but all
    its rows are after the requested date, and no [HTTPException] at all,
    so neither 404, when some row is on or before the requested date. *)
Theorem get_stock_not_found env symbol date d :
  Py.strptime_date date = Some d -> 40 < d < Py.MAXORDINAL ->
  (fetched env symbol d = [] ->
   outcome (get_stock symbol date) env = Raise NO_DATA) /\
  (fetched env symbol d <> [] ->
   (forall x, In x (fetched env symbol d) -> d < row_date x) ->
   outcome (get_stock symbol date) env = Raise NO_PRIOR_DATA) /\
  ((exists x, In x (fetched env symbol d) /\ row_date x <= d) ->
   forall status detail,
     outcome (get_stock symbol date) env <> Raise (HTTPException status detail)).
Proof.
  intros Hd Hr. unfold outcome. rewrite (get_stock_in_window _ _ _ _ Hd Hr).
  simpl. repeat split.
  - intros ->. reflexivity.
  - intros Hne Hall. now apply stock_metrics_no_prior.
  - intros (x & Hx & Hle) status detail E.
    destruct (stock_metrics_prior symbol d _ x Hx Hle) as (idx & _ & Hraise & _).
    destruct (Hraise _ E) as [kind Hk]. discriminate.
Qed.

Lemma get_stock_not_found_witness :
  outcome (get_stock "EC" "2024-01-14") Sample.silent = Raise NO_DATA /\
  outcome (get_stock "EC" "2024-01-14") Sample.late = Raise NO_PRIOR_DATA /\
  forall status detail,
    outcome (get_stock "EC" "2024-01-14") Sample.market
    <> Raise (HTTPException status detail).
Proof.
  split; [|split].
  - apply (get_stock_not_found Sample.silent "EC" "2024-01-14" 738899);
      [reflexivity | vm_compute; split; reflexivity | reflexivity].
  - apply (get_stock_not_found Sample.late "EC" "2024-01-14" 738899);
      [reflexivity | vm_compute; split; reflexivity | discriminate |].
    intros x [<-|[]]. vm_compute. reflexivity.
  - apply (get_stock_not_found Sample.market "EC" "2024-01-14" 738899);
      [reflexivity | vm_compute; split; reflexivity |].
    exists (mk_row 738897 12 14 12 13 900). split.
    + right. right. left. reflexivity.
    + vm_compute. discriminate.
Defined.

(** C1, as stated, fails: on Sunday 2024-01-14 the series has no row, the
    row resolved is the one of Friday 2024-01-12, and the response carries
    the requested date, not the date of that row. *)
Lemma get_stock_date_resolved_counterexample :
  Py.strptime_date "2024-01-14" = Some 738899 /\
  (forall x, In x (fetched Sample.market "EC" 738899) -> row_date x <> 738899) /\
  latest_on_or_before (sort_index (fetched Sample.market "EC" 738899)) 738899
    = Some 738897 /\
  Py.date_isoformat 738897 = "2024-01-12" /\
  exists resp,
    outcome (get_stock "EC" "2024-01-14") Sample.market = Ok resp /\
    sr_date resp = "2024-01-14" /\
    sr_date resp <> Py.date_isoformat 738897.
Proof.
  split; [reflexivity|]. split.
  { intros x Hx. vm_compute in Hx.
    destruct Hx as [<-|[<-|[<-|[<-|[]]]]]; discriminate. }
  split; [reflexivity|]. split; [reflexivity|].
  eexists. split; [vm_compute; reflexivity|].
  split; [reflexivity | discriminate].
Qed.

(** C1, amended.  When the requested date has no row in the fetched series
    (one row per date) and some row is earlier, [/stocks] succeeds: the
    prices and the volume are those of the latest row before the requested
    date, and the [date] field is the requested date in ISO form. *)
Theorem get_stock_non_trading_day env symbol date d :
  Py.strptime_date date = Some d -> 40 < d < Py.MAXORDINAL ->
  List.NoDup (List.map row_date (fetched env symbol d)) ->
  (forall x, In x (fetched env symbol d) -> row_date x <> d) ->
  (exists x, In x (fetched env symbol d) /\ row_date x < d) ->
  exists resp r,
    outcome (get_stock symbol date) env = Ok resp /\
    In r (fetched env symbol d) /\ row_date r < d /\
    (forall x, In x (fetched env symbol d) -> row_date x <= d ->
               row_date x <= row_date r) /\
    sr_date resp = Py.date_isoformat d /\
    sr_close resp = Close r /\ sr_open resp = Some (Open r) /\
    sr_high resp = Some (High r) /\ sr_low resp = Some (Low r) /\
    sr_volume resp = Some (Volume r).
Proof.
  intros Hd Hr Hnd Hnot (x & Hx & Hlt).
  unfold outcome. rewrite (get_stock_in_window _ _ _ _ Hd Hr). simpl.
  set (data := fetched env symbol d) in *.
  assert (Hx' : In x (sort_index data)) by now apply sort_index_In.
  destruct (latest_Some_exists _ d _ Hx' ltac:(lia)) as [idx Hidx].
  pose proof (latest_sorted_max _ _ _ (sort_index_sorted data) Hidx) as Hmax.
  destruct (latest_Some_In _ _ _ Hidx) as (Hle & r & Hrin & Hrd).
  pose proof (sort_index_NoDup _ Hnd) as Hnd'.
  assert (Hf : forall column, float_at (sort_index data) idx column = Ok (column r)).
  { intros column. rewrite <- Hrd. now apply float_at_unique. }
  destruct (get_close_at_total (sort_index data) d 1 Hnd' ltac:(lia)) as [cy Ey].
  destruct (get_close_at_total (sort_index data) d 7 Hnd' ltac:(lia)) as [cw Ew].
  destruct (get_close_at_total (sort_index data) d 30 Hnd' ltac:(lia)) as [cm Em].
  assert (Hrin' : In r data) by exact (proj1 (sort_index_In _ _) Hrin).
  assert (E : exists resp, stock_metrics symbol d data = Ok resp /\
            sr_date resp = Py.date_isoformat d /\
            sr_close resp = Close r /\ sr_open resp = Some (Open r) /\
            sr_high resp = Some (High r) /\ sr_low resp = Some (Low r) /\
            sr_volume resp = Some (Volume r)).
  { unfold stock_metrics. clearbody data.
    destruct data as [|r0 l0]; [contradiction|]. cbv iota.
    set (sorted := sort_index (r0 :: l0)) in *. clearbody sorted.
    rewrite Hidx, !Hf. simpl. rewrite Ey, Ew, Em. simpl.
    eexists. split; [reflexivity|]. simpl. repeat split. }
  destruct E as (resp & Eresp & Hfields).
  exists resp, r. split; [exact Eresp|].
  split; [exact Hrin'|].
  split; [specialize (Hnot r Hrin'); lia|].
  split; [|exact Hfields].
  intros y Hy Hyd. rewrite Hrd. apply Hmax; [|exact Hyd].
  now apply sort_index_In.
Qed.

Lemma get_stock_non_trading_day_witness :
  exists resp r,
    outcome (get_stock "EC" "2024-01-14") Sample.market = Ok resp /\
    In r (fetched Sample.market "EC" 738899) /\ row_date r < 738899 /\
    (forall x, In x (fetched Sample.market "EC" 738899) -> row_date x <= 738899 ->
               row_date x <= row_date r) /\
    sr_date resp = Py.date_isoformat 738899 /\
    sr_close resp = Close r /\ sr_open resp = Some (Open r) /\
    sr_high resp = Some (High r) /\ sr_low resp = Some (Low r) /\
    sr_volume resp = Some (Volume r).
Proof.
  apply (get_stock_non_trading_day Sample.market "EC" "2024-01-14" 738899).
  - reflexivity.
  - vm_compute. split; reflexivity.
  - vm_compute. repeat (constructor; [simpl; intuition discriminate|]). constructor.
  - intros x Hx. vm_compute in Hx.
    destruct Hx as [<-|[<-|[<-|[<-|[]]]]]; discriminate.
  - exists (mk_row 738897 12 14 12 13 900). split.
    + right. right. left. reflexivity.
    + reflexivity.
Defined.



(** ** [var_rel] in binary64 *)

Section Binary64Variations.

Lemma binary64_get_stock_Ok_inv yf symbol date resp :
  Binary64.get_stock yf symbol date = Ok resp ->
  exists d, Py.strptime_date date = Some d /\ 40 < d < Py.MAXORDINAL /\
            Binary64.stock_metrics symbol d (Binary64.fetched yf symbol d) = Ok resp.
Proof.
  unfold Binary64.get_stock, Binary64.fetched.
  destruct (Py.strptime_date date) as [d|]; simpl; [|discriminate].
  destruct (Py.date_add_days d (-40)) as [start|] eqn:Es; simpl; [|discriminate].
  destruct (Py.date_add_days d 1) as [end_|] eqn:Ee; simpl; [|discriminate].
  apply date_add_days_inv in Es as [-> Hs], Ee as [-> He].
  intros H. exists d. repeat split; try lia. exact H.
Qed.

Lemma binary64_stock_metrics_Ok_inv symbol d data resp :
  Binary64.stock_metrics symbol d data = Ok resp ->
  exists cy cw cm,
    Binary64.get_close_at (Binary64.sort_index data) d 1 = Ok cy /\
    Binary64.get_close_at (Binary64.sort_index data) d 7 = Ok cw /\
    Binary64.get_close_at (Binary64.sort_index data) d 30 = Ok cm /\
    Binary64.var_day resp
      = Binary64.var_rel (Some (Binary64.sr_close resp)) cy /\
    Binary64.var_week resp
      = Binary64.var_rel (Some (Binary64.sr_close resp)) cw /\
    Binary64.var_month resp
      = Binary64.var_rel (Some (Binary64.sr_close resp)) cm.
Proof.
  unfold Binary64.stock_metrics.
  destruct data as [|r0 l0]; [discriminate|]. cbv iota.
  set (sorted := Binary64.sort_index (r0 :: l0)). clearbody sorted.
  destruct (Binary64.latest_on_or_before sorted d) as [idx|]; [|discriminate].
  destruct (Binary64.float_at sorted idx Binary64.Close) as [c|]; simpl;
    [|discriminate].
  destruct (Binary64.float_at sorted idx Binary64.Open) as [o|]; simpl;
    [|discriminate].
  destruct (Binary64.float_at sorted idx Binary64.High) as [h|]; simpl;
    [|discriminate].
  destruct (Binary64.float_at sorted idx Binary64.Low) as [l|]; simpl;
    [|discriminate].
  destruct (Binary64.float_at sorted idx Binary64.Volume) as [v|]; simpl;
    [|discriminate].
  destruct (Binary64.get_close_at sorted d 1) as [cy|]; simpl; [|discriminate].
  destruct (Binary64.get_close_at sorted d 7) as [cw|]; simpl; [|discriminate].
  destruct (Binary64.get_close_at sorted d 30) as [cm|]; simpl; [|discriminate].
  intros [= <-]. exists cy, cw, cm. simpl. repeat split.
Qed.

End Binary64Variations.

(** C2.  In the arithmetic of the source, binary64: [var_rel] returns
    [None] when [past] is [None] or compares equal to zero, and otherwise,
    both being present, the float [(curr - past) / past] (with no [curr]
    it returns [None] as well); the three variations of a response are
    [var_rel] of the target close and of the close found 1, 7 and 30 days
    back. *)
Theorem var_rel_spec :
  (forall past, Binary64.var_rel None past = None) /\
  (forall curr, Binary64.var_rel curr None = None) /\
  (forall curr p,
     PrimFloat.eqb p 0%float = true -> Binary64.var_rel curr (Some p) = None) /\
  (forall c p,
     PrimFloat.eqb p 0%float = false ->
     Binary64.var_rel (Some c) (Some p) = Some ((c - p) / p)%float) /\
  (forall yf symbol date resp,
     Binary64.get_stock yf symbol date = Ok resp ->
     exists d cy cw cm,
       Py.strptime_date date = Some d /\
       Binary64.get_close_at
         (Binary64.sort_index (Binary64.fetched yf symbol d)) d 1 = Ok cy /\
       Binary64.get_close_at
         (Binary64.sort_index (Binary64.fetched yf symbol d)) d 7 = Ok cw /\
       Binary64.get_close_at
         (Binary64.sort_index (Binary64.fetched yf symbol d)) d 30 = Ok cm /\
       Binary64.var_day resp
         = Binary64.var_rel (Some (Binary64.sr_close resp)) cy /\
       Binary64.var_week resp
         = Binary64.var_rel (Some (Binary64.sr_close resp)) cw /\
       Binary64.var_month resp
         = Binary64.var_rel (Some (Binary64.sr_close resp)) cm).
Proof.
  split; [|split; [|split; [|split]]].
  - intros past. reflexivity.
  - intros [c|]; reflexivity.
  - intros [c|] p Hp; [|reflexivity]. simpl. now rewrite Hp.
  - intros c p Hp. simpl. now rewrite Hp.
  - intros yf symbol date resp Hok.
    destruct (binary64_get_stock_Ok_inv _ _ _ _ Hok) as (d & Hd & _ & Hm).
    destruct (binary64_stock_metrics_Ok_inv _ _ _ _ Hm)
      as (cy & cw & cm & Ey & Ew & Em & Hvd & Hvw & Hvm).
    exists d, cy, cw, cm. repeat split; assumption.
Qed.

Lemma var_rel_spec_witness :
  Binary64.var_rel (Some 15%float) (Some 0%float) = None /\
  Binary64.var_rel (Some 15%float) (Some (-0)%float) = None /\
  Binary64.var_rel (Some 15%float) (Some 13%float)
    = Some ((15 - 13) / 13)%float /\
  ((15 - 13) / 13)%float = 0x1.3b13b13b13b14p-3%float /\
  exists resp,
    Binary64.get_stock (fun _ _ _ => Binary64.week) "EC" "2024-01-15" = Ok resp /\
    Binary64.var_day resp
      = Binary64.var_rel (Some (Binary64.sr_close resp)) (Some 13%float) /\
    Binary64.var_day resp = Some 0x1.3b13b13b13b14p-3%float.
Proof.
  destruct var_rel_spec as (_ & _ & Hzero & Hval & Huse).
  split; [apply Hzero; reflexivity|].
  split; [apply Hzero; reflexivity|].
  split; [apply Hval; reflexivity|].
  split; [vm_compute; reflexivity|].
  eexists. split; [vm_compute; reflexivity|].
  destruct (Huse (fun _ _ _ => Binary64.week) "EC" "2024-01-15" _ eq_refl)
    as (d & cy & cw & cm & Hd & Ey & _ & _ & Hv & _).
  vm_compute in Hd. injection Hd as <-.
  vm_compute in Ey. injection Ey as <-.
  split; [exact Hv | vm_compute; reflexivity].
Defined.

(** ** [/tweets]: from the identifier to the timestamp *)

Section Snowflake.

Lemma utcfromtimestamp_ms_Some ms dt :
  Py.utcfromtimestamp_ms ms = Some dt ->
  Py.datetime_epoch_ms dt = ms /\ Py.datetime_valid dt /\
  Py.dt_microsecond dt mod 1000 = 0.
Proof.
  unfold Py.utcfromtimestamp_ms, Py.date_in_range.
  destruct (Z.leb_spec 1 (Py.EPOCH_ORDINAL + ms / 1000 / 86400)); simpl;
    [|discriminate].
  destruct (Z.leb_spec (Py.EPOCH_ORDINAL + ms / 1000 / 86400) Py.MAXORDINAL);
    [|discriminate].
  intros [= <-].
  unfold Py.datetime_epoch_ms, Py.datetime_valid; simpl.
  rewrite Z.div_mul by lia. rewrite Z.mod_mul by lia.
  repeat split; try lia; Z.div_mod_to_equations; lia.
Qed.

Lemma utcfromtimestamp_ms_None ms :
  Py.utcfromtimestamp_ms ms = None <->
  ms < Py.MIN_EPOCH_MS \/ Py.MAX_EPOCH_MS <= ms.
Proof.
  unfold Py.utcfromtimestamp_ms, Py.date_in_range, Py.MIN_EPOCH_MS,
    Py.MAX_EPOCH_MS, Py.MAXORDINAL, Py.EPOCH_ORDINAL.
  destruct (Z.leb_spec 1 (719163 + ms / 1000 / 86400)); simpl.
  - destruct (Z.leb_spec (719163 + ms / 1000 / 86400) 3652059).
    + split; [discriminate|]. intros Hout. exfalso.
      Z.div_mod_to_equations. lia.
    + split; [|reflexivity]. intros _. right.
      Z.div_mod_to_equations. lia.
  - split; [|reflexivity]. intros _. left.
    Z.div_mod_to_equations. lia.
Qed.

End Snowflake.

(** C5.  For an identifier of 64 bits [tweet_id_to_datetime] returns the
    datetime, with all its fields in range, that lies
    [(tweet_id >> 22) + 1288834974657] milliseconds after the epoch;
    for any integer the function returns [None], and raises nothing,
    exactly when that instant is outside the years 1 to 9999. *)
Theorem tweet_id_to_datetime_spec (tweet_id : Z) :
  (0 <= tweet_id < 2 ^ 64 ->
   exists dt, tweet_id_to_datetime tweet_id = Some dt) /\
  (forall dt, tweet_id_to_datetime tweet_id = Some dt ->
     Py.datetime_epoch_ms dt = Z.shiftr tweet_id 22 + 1288834974657 /\
     Py.datetime_valid dt /\ Py.dt_microsecond dt mod 1000 = 0) /\
  (tweet_id_to_datetime tweet_id = None <->
     Z.shiftr tweet_id 22 + 1288834974657 < Py.MIN_EPOCH_MS \/
     Py.MAX_EPOCH_MS <= Z.shiftr tweet_id 22 + 1288834974657).
Proof.
  unfold tweet_id_to_datetime, twitter_epoch_ms.
  split; [|split].
  - intros Hid.
    destruct (Py.utcfromtimestamp_ms _) as [dt|] eqn:E; [now exists dt|].
    apply utcfromtimestamp_ms_None in E. exfalso.
    rewrite Z.shiftr_div_pow2 in E by lia.
    unfold Py.MIN_EPOCH_MS, Py.MAX_EPOCH_MS, Py.MAXORDINAL, Py.EPOCH_ORDINAL in E.
    change (2 ^ 64) with 18446744073709551616 in Hid.
    change (2 ^ 22) with 4194304 in E.
    Z.div_mod_to_equations. lia.
  - intros dt Hdt. now apply utcfromtimestamp_ms_Some.
  - apply utcfromtimestamp_ms_None.
Qed.

Lemma tweet_id_to_datetime_spec_witness :
  exists dt,
    tweet_id_to_datetime 1234567890123456789 = Some dt /\
    Py.datetime_epoch_ms dt = 1583178896824 /\
    Py.datetime_isoformat dt = "2020-03-02T19:54:56.824000".
Proof.
  destruct (tweet_id_to_datetime_spec 1234567890123456789) as (Hex & Hms & _).
  destruct Hex as [dt Hdt]; [vm_compute; split; [discriminate|reflexivity]|].
  exists dt. split; [exact Hdt|].
  split; [exact (proj1 (Hms dt Hdt))|].
  vm_compute in Hdt. injection Hdt as <-. reflexivity.
Defined.

(** ** [/tweets]: from the link to the identifier *)

Section Links.

Lemma split_not_nil sep s : Py.split sep s <> [].
Proof.
  destruct s as [|c s]; simpl; [discriminate|].
  destruct (Ascii.eqb c sep); [discriminate|].
  destruct (Py.split sep s); discriminate.
Qed.

(** The first piece of a split is the text before the first separator. *)
Lemma split_hd sep s :
  let h := List.hd "" (Py.split sep s) in
  ~ In sep (list_ascii_of_string h) /\
  (s = h \/ exists tail, s = h ++ String sep tail).
Proof.
  induction s as [|c s IH]; simpl.
  - split; [tauto | now left].
  - destruct (Ascii.eqb_spec c sep) as [->|Hne]; simpl.
    + split; [tauto|]. right. now exists s.
    + destruct IH as [Hno Hs].
      destruct (Py.split sep s) as [|w ws] eqn:E;
        [now apply split_not_nil in E|].
      simpl in *. split.
      * intros [Hc|Hin]; [congruence | tauto].
      * destruct Hs as [->|[tail ->]]; [now left|].
        right. now exists tail.
Qed.

Lemma mem_In x parts : Py.mem x parts = true <-> In x parts.
Proof.
  unfold Py.mem. rewrite existsb_exists. split.
  - intros (y & Hy & E). apply String.eqb_eq in E. now subst.
  - intros H. exists x. split; [exact H | apply String.eqb_refl].
Qed.

Lemma index_first x pre post :
  ~ In x pre -> Py.index x (pre ++ x :: post)%list = Some (List.length pre).
Proof.
  induction pre as [|p ps IH]; simpl; intros Hn.
  - now rewrite String.eqb_refl.
  - destruct (String.eqb_spec p x) as [->|_]; [tauto|].
    rewrite IH by tauto. reflexivity.
Qed.

Lemma lookup_after (pre : list string) x post :
  (pre ++ x :: post)%list !! S (List.length pre) = List.hd_error post.
Proof.
  induction pre as [|p ps IH]; simpl; [now destruct post | exact IH].
Qed.

Lemma extract_tweet_id_no_status link :
  ~ In "status" (Py.split "/" link) -> extract_tweet_id link = None.
Proof.
  intros Hn. unfold extract_tweet_id.
  destruct (Py.mem "status" (Py.split "/" link)) eqn:E; [|reflexivity].
  apply mem_In in E. contradiction.
Qed.

Lemma extract_tweet_id_at link pre post :
  Py.split "/" link = (pre ++ "status" :: post)%list -> ~ In "status" pre ->
  extract_tweet_id link =
  match post with
  | [] => None
  | segment :: _ =>
      let tweet_id_str := List.hd "" (Py.split "?" segment) in
      if Py.isdigit tweet_id_str then Py.int tweet_id_str else None
  end.
Proof.
  intros Hs Hn. unfold extract_tweet_id. rewrite Hs.
  assert (Hm : Py.mem "status" (pre ++ "status" :: post)%list = true).
  { apply mem_In, in_or_app. right. now left. }
  rewrite Hm, (index_first _ _ _ Hn), lookup_after.
  destruct post; reflexivity.
Qed.

End Links.

(** C4.  The link of the specification gives the identifier it shows.
    When [status] is a piece of the link split on [/], the piece after its
    first occurrence, cut at the first [?], is read as the identifier if
    it is made of digits and there is no identifier otherwise, nor when
    [status] is the last piece.  When no piece is [status] there is no
    identifier and no timestamp, nothing is raised, and a result that
    passes the platform test is emitted with an empty [created_at]. *)
Theorem extract_tweet_id_spec :
  extract_tweet_id "https://x.com/u/status/1234567890123456789?s=20"
    = Some 1234567890123456789 /\
  (forall link pre segment rest,
     Py.split "/" link = (pre ++ "status" :: segment :: rest)%list ->
     ~ In "status" pre ->
     let tweet_id_str := List.hd "" (Py.split "?" segment) in
     ~ In "?"%char (list_ascii_of_string tweet_id_str) /\
     (segment = tweet_id_str \/
      exists tail, segment = tweet_id_str ++ String "?" tail) /\
     extract_tweet_id link =
       if Py.isdigit tweet_id_str then Py.int tweet_id_str else None) /\
  (forall link pre,
     Py.split "/" link = (pre ++ ["status"])%list -> ~ In "status" pre ->
     extract_tweet_id link = None) /\
  (forall link,
     ~ In "status" (Py.split "/" link) ->
     extract_tweet_id link = None /\
     derived_timestamp link = None /\
     forall date r,
       get_str r "link" = link ->
       platform_ok link (get_str r "source") = true ->
       exists item, tweet_candidate date r = Some item /\
                    ti_created_at item = "" /\ ti_url item = Some link).
Proof.
  split; [reflexivity|]. split; [|split].
  - intros link pre segment rest Hs Hn tweet_id_str.
    destruct (split_hd "?" segment) as [Hno Hcut].
    split; [exact Hno|]. split; [exact Hcut|].
    now rewrite (extract_tweet_id_at _ _ _ Hs Hn).
  - intros link pre Hs Hn. now rewrite (extract_tweet_id_at _ _ _ Hs Hn).
  - intros link Hn.
    pose proof (extract_tweet_id_no_status link Hn) as He.
    assert (Hd : derived_timestamp link = None)
      by (unfold derived_timestamp; now rewrite He).
    split; [exact He|]. split; [exact Hd|].
    intros date r Hl Hp. unfold tweet_candidate.
    rewrite Hl, Hp, Hd. simpl. eexists. repeat split.
Qed.

Lemma extract_tweet_id_spec_witness :
  extract_tweet_id "https://x.com/u/status/1234567890123456789?s=20"
    = Some 1234567890123456789 /\
  extract_tweet_id "https://x.com/u/status/12ab?s=20" = None /\
  extract_tweet_id "https://x.com/u/status" = None /\
  exists item, tweet_candidate "2024-01-15" Sample.profile = Some item /\
               ti_created_at item = "" /\
               ti_url item = Some "https://x.com/ECOPETROL_SA".
Proof.
  destruct extract_tweet_id_spec as (Hex & Hat & Hlast & Hno).
  split; [exact Hex|]. split; [|split].
  - destruct (Hat "https://x.com/u/status/12ab?s=20" ["https:"; ""; "x.com"; "u"]
                "12ab?s=20" []) as (_ & _ & E); [reflexivity | |exact E].
    simpl. intuition discriminate.
  - apply (Hlast "https://x.com/u/status" ["https:"; ""; "x.com"; "u"]);
      [reflexivity|]. simpl. intuition discriminate.
  - destruct (Hno "https://x.com/ECOPETROL_SA") as (_ & _ & Hkeep).
    + vm_compute. intuition discriminate.
    + apply (Hkeep "2024-01-15" Sample.profile); reflexivity.
Defined.

(** ** [/tweets]: the date filter *)

Section DateFilter.

Lemma get_tweets_Ok_inv env key keyword date n resp :
  outcome (get_tweets key keyword date n) env = Ok resp ->
  exists r data,
    requests_get env SERPAPI_URL (tweets_params key keyword n) = Responded r /\
    status_code r = 200 /\ json r = Some data /\
    resp = {| tr_keyword := keyword;
              tr_date := date;
              tr_tweets := omap (tweet_candidate date) (organic_results data) |}.
Proof.
  unfold outcome, run, get_tweets.
  destruct key as [|k0 key]; [discriminate|].
  unfold mbind, M_bind, http_get.
  destruct (requests_get env _ _) as [r|kind] eqn:Er; [|discriminate].
  destruct (Z.eqb_spec (status_code r) 200) as [Hs|Hs]; simpl; [|discriminate].
  unfold or_raise, liftR. destruct (json r) as [data|] eqn:Ej; simpl;
    [|discriminate].
  intros [= <-]. exists r, data. repeat split; assumption.
Qed.

Lemma omap_length_filter {A B} (f : A -> option B) (p : A -> bool) (l : list A) :
  (forall x, f x = None <-> p x = false) ->
  List.length (omap f l) = List.length (List.filter p l).
Proof.
  intros Hfp. induction l as [|x xs IH]; simpl; [reflexivity|].
  destruct (f x) as [y|] eqn:Ef.
  - destruct (p x) eqn:Ep; [simpl; f_equal; exact IH|].
    apply Hfp in Ep. congruence.
  - apply Hfp in Ef. rewrite Ef. exact IH.
Qed.

(** A turn of the loop ends in [continue] for one of two reasons. *)
Lemma tweet_candidate_None date r :
  tweet_candidate date r = None <->
  platform_ok (get_str r "link") (get_str r "source") = false \/
  exists dt target_date,
    derived_timestamp (get_str r "link") = Some dt /\
    Py.strptime_date date = Some target_date /\
    Py.dt_date dt <> target_date.
Proof.
  unfold tweet_candidate, tweet_date_ok.
  destruct (platform_ok _ _); simpl.
  - destruct (derived_timestamp _) as [dt|]; simpl.
    + destruct (Py.strptime_date date) as [td|]; simpl.
      * destruct (Z.eqb_spec (Py.dt_date dt) td) as [E|E]; simpl.
        -- split; [discriminate|].
           intros [?|(dt' & td' & [= <-] & [= <-] & Hne)]; congruence.
        -- split; [|reflexivity]. intros _. right. now exists dt, td.
      * split; [discriminate|].
        intros [?|(dt' & td' & _ & ? & _)]; discriminate.
    + split; [discriminate|].
      intros [?|(dt' & td' & ? & _)]; discriminate.
  - split; [|reflexivity]. intros _. now left.
Qed.

End DateFilter.

Lemma omap_In {A B} (f : A -> option B) (l : list A) (x : A) (y : B) :
  In x l -> f x = Some y -> In y (omap f l).
Proof.
  intros Hin Hf. induction l as [|a l IH]; [contradiction|]. simpl.
  destruct Hin as [->|Hin].
  - rewrite Hf. now left.
  - destruct (f a); [right|]; exact (IH Hin).
Qed.

(** C3.  For a result that passes the platform test: when no timestamp is
    derived from its link, whatever the query date, the turn of the loop
    keeps it, with an empty [created_at]; the result is dropped exactly
    when a timestamp is derived, the query date parses and the two dates
    differ.  No timestamp is derived exactly when no identifier is
    extracted or the conversion of the identifier fails.  In a response
    of [/tweets] the tweets are the results of the provider's answer that
    are not dropped, in order; so the result, when it is in the answer and
    has no timestamp, is among the tweets of the response, with an empty
    [created_at] and its link as [url]. *)
Theorem undated_candidates_kept date r :
  platform_ok (get_str r "link") (get_str r "source") = true ->
  (derived_timestamp (get_str r "link") = None ->
   exists item, tweet_candidate date r = Some item /\ ti_created_at item = "") /\
  (tweet_candidate date r = None <->
   exists dt target_date,
     derived_timestamp (get_str r "link") = Some dt /\
     Py.strptime_date date = Some target_date /\
     Py.dt_date dt <> target_date) /\
  (derived_timestamp (get_str r "link") = None <->
   extract_tweet_id (get_str r "link") = None \/
   exists tweet_id, extract_tweet_id (get_str r "link") = Some tweet_id /\
                    tweet_id_to_datetime tweet_id = None) /\
  (forall env key keyword n resp,
     outcome (get_tweets key keyword date n) env = Ok resp ->
     exists answer data,
       requests_get env SERPAPI_URL (tweets_params key keyword n)
         = Responded answer /\
       json answer = Some data /\
       tr_tweets resp = omap (tweet_candidate date) (organic_results data) /\
       (In r (organic_results data) ->
        derived_timestamp (get_str r "link") = None ->
        exists item,
          In item (tr_tweets resp) /\
          ti_created_at item = "" /\
          ti_url item = Some (get_str r "link"))).
Proof.
  intros Hp.
  assert (Hkeep : derived_timestamp (get_str r "link") = None ->
            exists item, tweet_candidate date r = Some item /\
                         ti_created_at item = "" /\
                         ti_url item = Some (get_str r "link")).
  { intros Hd. unfold tweet_candidate. rewrite Hp, Hd. simpl.
    eexists. repeat split. }
  split; [|split; [|split]].
  - intros Hd. destruct (Hkeep Hd) as (item & Hi & Hc & _). now exists item.
  - rewrite tweet_candidate_None. split; [|now right].
    intros [Hf|H]; [congruence | exact H].
  - unfold derived_timestamp.
    destruct (extract_tweet_id _) as [tweet_id|]; split.
    + intros H. right. now exists tweet_id.
    + intros [?|(i & [= <-] & H)]; [discriminate | exact H].
    + intros _. now left.
    + reflexivity.
  - intros env key keyword n resp Hok.
    destruct (get_tweets_Ok_inv _ _ _ _ _ _ Hok)
      as (answer & data & Hr & _ & Hj & ->).
    exists answer, data. split; [exact Hr|]. split; [exact Hj|].
    split; [reflexivity|]. simpl.
    intros Hin Hd. destruct (Hkeep Hd) as (item & Hi & Hc & Hu).
    exists item. split; [|split; assumption].
    exact (omap_In _ _ _ _ Hin Hi).
Qed.

Lemma undated_candidates_kept_witness :
  (exists item, tweet_candidate "2024-01-15" Sample.profile = Some item /\
                ti_created_at item = "") /\
  tweet_candidate "2024-01-15" Sample.post = None /\
  exists resp,
    outcome (get_tweets "key" "Ecopetrol" "2024-01-15" 20)
      (Sample.search 200 [Sample.post; Sample.elsewhere; Sample.profile]) = Ok resp /\
    exists item,
      In item (tr_tweets resp) /\
      ti_created_at item = "" /\
      ti_url item = Some "https://x.com/ECOPETROL_SA".
Proof.
  split; [|split].
  - apply (undated_candidates_kept "2024-01-15" Sample.profile); reflexivity.
  - apply (undated_candidates_kept "2024-01-15" Sample.post); [reflexivity|].
    eexists. exists 738900. split; [vm_compute; reflexivity|].
    split; [reflexivity | discriminate].
  - eexists. split; [vm_compute; reflexivity|].
    destruct (undated_candidates_kept "2024-01-15" Sample.profile eq_refl)
      as (_ & _ & _ & Hresp).
    destruct (Hresp (Sample.search 200 [Sample.post; Sample.elsewhere; Sample.profile])
                "key" "Ecopetrol" 20 _ eq_refl)
      as (answer & data & Ha & Hj & _ & Hemit).
    injection Ha as <-. injection Hj as <-.
    apply Hemit; [|reflexivity].
    right. right. left. reflexivity.
Defined.

(** C6.  The string [2024-13-40] is not a date.  With it as the query
    date, a turn of the [/tweets] loop drops a result only by the platform
    test, so a response holds one tweet for each result of the provider
    that passes that test, whatever its timestamp; and [/stocks] raises
    the 400 [BAD_DATE] with no call to a provider. *)
Theorem malformed_date_handling :
  Py.strptime_date "2024-13-40" = None /\
  (forall r,
     tweet_candidate "2024-13-40" r = None <->
     platform_ok (get_str r "link") (get_str r "source") = false) /\
  (forall env key keyword n resp,
     outcome (get_tweets key keyword "2024-13-40" n) env = Ok resp ->
     exists r data,
       requests_get env SERPAPI_URL (tweets_params key keyword n) = Responded r /\
       json r = Some data /\
       List.length (tr_tweets resp) =
       List.length
         (List.filter (fun c => platform_ok (get_str c "link") (get_str c "source"))
            (organic_results data))) /\
  (forall env symbol,
     run (get_stock symbol "2024-13-40") env
     = (Raise (HTTPException 400 "Formato de fecha inválido. Usa YYYY-MM-DD."), [])).
Proof.
  assert (Hbad : Py.strptime_date "2024-13-40" = None) by reflexivity.
  assert (Hdrop : forall r,
            tweet_candidate "2024-13-40" r = None <->
            platform_ok (get_str r "link") (get_str r "source") = false).
  { intros r. rewrite tweet_candidate_None. split; [|now left].
    intros [H|(dt & td & _ & Htd & _)]; [exact H|].
    rewrite Hbad in Htd. discriminate. }
  split; [exact Hbad|]. split; [exact Hdrop|]. split.
  - intros env key keyword n resp Hok.
    destruct (get_tweets_Ok_inv _ _ _ _ _ _ Hok) as (r & data & Hr & _ & Hj & ->).
    exists r, data. split; [exact Hr|]. split; [exact Hj|].
    simpl. now apply omap_length_filter.
  - intros env symbol. rewrite get_stock_run, Hbad. reflexivity.
Qed.

Lemma malformed_date_handling_witness :
  exists resp,
    outcome (get_tweets "key" "Ecopetrol" "2024-13-40" 20)
      (Sample.search 200 [Sample.post; Sample.elsewhere; Sample.profile]) = Ok resp /\
    List.length (tr_tweets resp) = 2%nat /\
    List.map ti_created_at (tr_tweets resp) = ["2020-03-02T19:54:56.824000"; ""].
Proof.
  eexists. split; [vm_compute; reflexivity|].
  destruct malformed_date_handling as (_ & _ & Hlen & _).
  destruct (Hlen (Sample.search 200 [Sample.post; Sample.elsewhere; Sample.profile])
              "key" "Ecopetrol" 20 _ eq_refl) as (r & data & Hr & Hj & E).
  injection Hr as <-. injection Hj as <-.
  split; [exact E | reflexivity].
Defined.

(** ** [/news] *)

Section News.

Lemma get_news_run env keyword date maxrecords :
  run (get_news keyword date maxrecords) env =
  match Py.strptime_date date with
  | None => (Raise BAD_DATE, [])
  | Some d =>
      let params := news_params keyword d maxrecords in
      (match requests_get env GDELT_URL params with
       | Failed kind => Raise (Uncaught kind)
       | Responded r =>
           if status_code r =? 200 then
             match json r with
             | None => Raise (Uncaught "JSONDecodeError")
             | Some data =>
                 match raw_articles_of data with
                 | TNull => Raise (Uncaught "TypeError")
                 | TList raw =>
                     articles ← mapR news_item raw;
                     mret {| nr_keyword := keyword;
                             nr_date := date;
                             nr_articles := articles |}
                 end
             end
           else Raise GDELT_ERROR
       end,
       [CallGet GDELT_URL params])
  end.
Proof.
  unfold get_news, run, mbind at 1, M_bind, or_raise, liftR.
  destruct (Py.strptime_date date) as [d|]; simpl; [|reflexivity].
  unfold mbind, M_bind, http_get.
  destruct (requests_get env _ _) as [r|kind]; simpl; [|reflexivity].
  destruct (status_code r =? 200); simpl; [|reflexivity].
  destruct (json r) as [data|]; simpl; [|reflexivity].
  destruct (raw_articles_of data) as [|raw]; simpl; [reflexivity|].
  unfold liftR. destruct (mapR news_item raw); reflexivity.
Qed.

Lemma news_item_Raise a e :
  news_item a = Raise e -> e = Uncaught "ValidationError".
Proof.
  unfold news_item.
  destruct (dict_get a "title" (JStr "")); simpl; [intros [= <-]; reflexivity|].
  destruct (dict_get a "url" (JStr "")); simpl; [intros [= <-]; reflexivity|discriminate].
Qed.

Lemma mapR_news_item_Raise raw e :
  mapR news_item raw = Raise e -> e = Uncaught "ValidationError".
Proof.
  induction raw as [|a l IH]; simpl; [discriminate|].
  destruct (news_item a) as [item|e'] eqn:Ea; simpl.
  - destruct (mapR news_item l) as [items|e'']; simpl; [discriminate|].
    intros [= <-]. now apply IH.
  - intros [= <-]. now apply news_item_Raise in Ea.
Qed.

Lemma mapR_Forall2 {A B} (f : A -> result B) (l : list A) (l' : list B) :
  mapR f l = Ok l' -> Forall2 (fun a b => f a = Ok b) l l'.
Proof.
  revert l'. induction l as [|a l IH]; simpl; intros l'.
  - intros [= <-]. constructor.
  - destruct (f a) as [b|] eqn:Ea; simpl; [|discriminate].
    destruct (mapR f l) as [bs|]; simpl; [|discriminate].
    intros [= <-]. constructor; [exact Ea | now apply IH].
Qed.

(** The title and the snippet of an item, from the [title] key alone. *)
Lemma news_item_Ok a item :
  news_item a = Ok item ->
  (a !! "title" = None /\ ni_title item = "" /\ ni_snippet item = None) \/
  (exists t, a !! "title" = Some (JStr t) /\ ni_title item = t /\
             ni_snippet item = Some t).
Proof.
  unfold news_item, dict_get.
  destruct (a !! "title") as [[|t]|] eqn:Et; simpl; [discriminate| |].
  - destruct (default (JStr "") (a !! "url")); simpl; [discriminate|].
    intros [= <-]. right. exists t. simpl. auto.
  - destruct (default (JStr "") (a !! "url")); simpl; [discriminate|].
    intros [= <-]. left. simpl. auto.
Qed.

Lemma get_news_Ok_inv env keyword date maxrecords resp :
  outcome (get_news keyword date maxrecords) env = Ok resp ->
  exists d r data raw,
    Py.strptime_date date = Some d /\
    requests_get env GDELT_URL (news_params keyword d maxrecords) = Responded r /\
    status_code r = 200 /\ json r = Some data /\
    raw_articles_of data = TList raw /\
    mapR news_item raw = Ok (nr_articles resp) /\
    nr_keyword resp = keyword /\ nr_date resp = date.
Proof.
  unfold outcome. rewrite get_news_run.
  destruct (Py.strptime_date date) as [d|]; [|discriminate]. simpl.
  destruct (requests_get env _ _) as [r|kind] eqn:Er; [|discriminate].
  destruct (Z.eqb_spec (status_code r) 200) as [Hs|Hs]; [|discriminate].
  destruct (json r) as [data|] eqn:Ej; [|discriminate].
  destruct (raw_articles_of data) as [|raw] eqn:Eraw; [discriminate|].
  destruct (mapR news_item raw) as [items|] eqn:Em; simpl; [|discriminate].
  intros [= <-]. exists d, r, data, raw. simpl. repeat split; assumption.
Qed.

End News.

(** C7.  [/news] raises a 502 exactly when the provider is queried (the
    date parses), answers, and its status is not 200, and the detail is
    then that of [GDELT_ERROR]; when the provider answers 200 with an
    empty article list the response has the keyword and the date of the
    request and no article. *)
Theorem get_news_upstream env keyword date maxrecords :
  (forall detail,
     outcome (get_news keyword date maxrecords) env
       = Raise (HTTPException 502 detail) <->
     detail = "Error consultando GDELT." /\
     exists d r,
       Py.strptime_date date = Some d /\
       requests_get env GDELT_URL (news_params keyword d maxrecords) = Responded r /\
       status_code r <> 200) /\
  (forall d r data,
     Py.strptime_date date = Some d ->
     requests_get env GDELT_URL (news_params keyword d maxrecords) = Responded r ->
     status_code r = 200 ->
     json r = Some data ->
     data !! "articles" = Some (TList []) ->
     outcome (get_news keyword date maxrecords) env
       = Ok {| nr_keyword := keyword; nr_date := date; nr_articles := [] |}).
Proof.
  unfold outcome. rewrite get_news_run. split.
  - intros detail.
    destruct (Py.strptime_date date) as [d|]; simpl.
    2:{ split; [discriminate|]. intros (_ & d & r & ? & _). discriminate. }
    destruct (requests_get env _ _) as [r|kind] eqn:Er; simpl.
    2:{ split; [discriminate|]. intros (_ & d' & r & [= <-] & ? & _).
        congruence. }
    destruct (Z.eqb_spec (status_code r) 200) as [Hs|Hs]; simpl.
    + split.
      * destruct (json r) as [data|]; [|discriminate].
        destruct (raw_articles_of data) as [|raw]; [discriminate|].
        destruct (mapR news_item raw) as [items|e] eqn:Em; simpl; [discriminate|].
        apply mapR_news_item_Raise in Em. subst e. discriminate.
      * intros (_ & d' & r' & [= <-] & Hr' & Hne).
        rewrite Er in Hr'. injection Hr' as <-. contradiction.
    + split.
      * intros [= <-]. split; [reflexivity|]. now exists d, r.
      * intros (-> & _). reflexivity.
  - intros d r data Hd Hr Hs Hj Ha. rewrite Hd. simpl. rewrite Hr, Hs. simpl.
    rewrite Hj. unfold raw_articles_of, dict_get. rewrite Ha. reflexivity.
Qed.

Lemma get_news_upstream_witness :
  outcome (get_news "Ecopetrol" "2024-01-15" 50) (Sample.gdelt 503 [])
    = Raise (HTTPException 502 "Error consultando GDELT.") /\
  outcome (get_news "Ecopetrol" "2024-01-15" 50) (Sample.gdelt 200 [])
    = Ok {| nr_keyword := "Ecopetrol"; nr_date := "2024-01-15"; nr_articles := [] |}.
Proof.
  split.
  - apply (get_news_upstream (Sample.gdelt 503 []) "Ecopetrol" "2024-01-15" 50).
    split; [reflexivity|]. exists 738900. eexists.
    split; [reflexivity|]. split; [reflexivity|]. simpl. discriminate.
  - apply (proj2 (get_news_upstream (Sample.gdelt 200 []) "Ecopetrol" "2024-01-15" 50)
             738900 _ _ eq_refl eq_refl eq_refl eq_refl).
    reflexivity.
Defined.

(** C10.  In a response of [/news] the items stand one for one for the
    raw articles of the provider; the snippet of an item is absent when
    the raw article has no title and is the title of the item otherwise;
    two raw articles with the same [title] entry give the same snippet,
    whatever their other entries. *)
Theorem news_snippet_is_title env keyword date maxrecords resp :
  outcome (get_news keyword date maxrecords) env = Ok resp ->
  (exists d r data raw,
     Py.strptime_date date = Some d /\
     requests_get env GDELT_URL (news_params keyword d maxrecords) = Responded r /\
     json r = Some data /\ raw_articles_of data = TList raw /\
     Forall2 (fun a item =>
                (a !! "title" = None /\ ni_snippet item = None) \/
                (exists t, a !! "title" = Some (JStr t) /\ ni_title item = t /\
                           ni_snippet item = Some (ni_title item)))
       raw (nr_articles resp)) /\
  (forall a a' item item',
     a !! "title" = a' !! "title" ->
     news_item a = Ok item -> news_item a' = Ok item' ->
     ni_snippet item = ni_snippet item').
Proof.
  intros Hok. split.
  - destruct (get_news_Ok_inv _ _ _ _ _ Hok)
      as (d & r & data & raw & Hd & Hr & _ & Hj & Hraw & Hm & _).
    exists d, r, data, raw. repeat (split; [assumption|]).
    apply mapR_Forall2 in Hm. eapply Forall2_impl; [exact Hm|].
    intros a item Ha. simpl in Ha.
    destruct (news_item_Ok _ _ Ha) as [(Hn & _ & Hs)|(t & Ht & Htitle & Hs)].
    + now left.
    + right. exists t. rewrite Htitle. auto.
  - intros a a' item item' Ht Ha Ha'.
    destruct (news_item_Ok _ _ Ha) as [(Hn & _ & Hs)|(t & Hn & _ & Hs)];
      destruct (news_item_Ok _ _ Ha') as [(Hn' & _ & Hs')|(t' & Hn' & _ & Hs')];
      congruence.
Qed.

Lemma news_snippet_is_title_witness :
  exists resp item item',
    outcome (get_news "Ecopetrol" "2024-01-15" 50)
      (Sample.gdelt 200 [Sample.article; Sample.untitled]) = Ok resp /\
    List.map ni_snippet (nr_articles resp) = [Some "Ecopetrol sube"; None] /\
    news_item Sample.article = Ok item /\
    news_item (delete "snippet" Sample.article) = Ok item' /\
    ni_snippet item = ni_snippet item'.
Proof.
  eexists. eexists. eexists.
  split; [vm_compute; reflexivity|]. split; [reflexivity|].
  split; [vm_compute; reflexivity|]. split; [vm_compute; reflexivity|].
  apply (proj2 (news_snippet_is_title
                  (Sample.gdelt 200 [Sample.article; Sample.untitled])
                  "Ecopetrol" "2024-01-15" 50 _ eq_refl)
           Sample.article (delete "snippet" Sample.article));
    vm_compute; reflexivity.
Defined.

(** * Further properties of the handlers *)

(** ** [/stocks]: errors, calls and the rows behind a response *)

Section StocksMore.

Lemma stock_metrics_Raise symbol d data e :
  stock_metrics symbol d data = Raise e ->
  e = NO_DATA \/ e = NO_PRIOR_DATA \/ exists kind, e = Uncaught kind.
Proof.
  intros H. destruct data as [|r0 l0]; [left; simpl in H; congruence|].
  set (data := r0 :: l0) in *.
  destruct (latest_on_or_before (sort_index data) d) as [idx|] eqn:E.
  - apply latest_Some_In in E as (Hle & x & Hx & <-).
    apply (proj1 (sort_index_In _ _)) in Hx.
    destruct (stock_metrics_prior symbol d data x Hx Hle) as (_ & _ & Hr & _).
    right. right. now apply Hr.
  - right. left.
    rewrite stock_metrics_no_prior in H; [congruence | discriminate |].
    intros x Hx. apply (proj1 (latest_None _ _) E). now apply sort_index_In.
Qed.

Lemma filter_singleton {A} (f : A -> bool) (l : list A) (r : A) :
  List.filter f l = [r] ->
  In r l /\ f r = true /\ forall x, In x l -> f x = true -> x = r.
Proof.
  intros H.
  assert (Hr : In r (List.filter f l)) by (rewrite H; now left).
  apply filter_In in Hr as [Hin Hf]. repeat split; try assumption.
  intros x Hx Hfx.
  assert (Hx' : In x (List.filter f l)) by (apply filter_In; now split).
  rewrite H in Hx'. destruct Hx' as [->|[]]. reflexivity.
Qed.


End StocksMore.

(** X1.  [/stocks] raises no other [HTTPException] than a 400 or a 404,
    and the 400 exactly when the date does not parse, in which case no
    provider is called. *)
Theorem get_stock_bad_date env symbol date :
  (forall status detail,
     outcome (get_stock symbol date) env = Raise (HTTPException status detail) ->
     status = 400 \/ status = 404) /\
  (forall detail,
     outcome (get_stock symbol date) env = Raise (HTTPException 400 detail) <->
     Py.strptime_date date = None /\
     detail = "Formato de fecha inválido. Usa YYYY-MM-DD.") /\
  (Py.strptime_date date = None ->
   run (get_stock symbol date) env = (Raise BAD_DATE, [])).
Proof.
  unfold outcome. rewrite get_stock_run.
  destruct (Py.strptime_date date) as [d|]; simpl.
  - assert (Hm : forall data status detail,
              stock_metrics symbol d data = Raise (HTTPException status detail) ->
              status = 404).
    { intros data status detail H.
      apply stock_metrics_Raise in H as [H|[H|[kind H]]];
        unfold NO_DATA, NO_PRIOR_DATA in H; congruence. }
    destruct (Py.date_add_days d (-40)) as [start|];
      [destruct (Py.date_add_days d 1) as [end_|]|]; simpl.
    + split; [|split].
      * intros status detail H. right. now apply Hm in H.
      * intros detail. split; [|intros [? _]; discriminate].
        intros H. apply Hm in H. discriminate.
      * discriminate.
    + split; [|split]; [discriminate| |discriminate].
      intros detail. split; [discriminate | intros [? _]; discriminate].
    + split; [|split]; [discriminate| |discriminate].
      intros detail. split; [discriminate | intros [? _]; discriminate].
  - split; [|split].
    + intros status detail [= <- _]. now left.
    + intros detail. split; [intros [= <-]; now split|].
      intros [_ ->]. reflexivity.
    + reflexivity.
Qed.

Lemma get_stock_bad_date_witness :
  run (get_stock "EC" "15/01/2024") Sample.market = (Raise BAD_DATE, []).
Proof.
  apply (get_stock_bad_date Sample.market "EC" "15/01/2024"). reflexivity.
Defined.

(** X2.  A date that parses reaches the price provider exactly when its
    window of 40 days before and one day after exists; the provider is
    then called once, with the two ends of the window in ISO form.  For a
    date in the first 40 days of the year 1, or the last day of the year
    9999, the date arithmetic overflows: nothing is called and the
    exception is not caught. *)
Theorem get_stock_window env symbol date d :
  Py.strptime_date date = Some d ->
  (40 < d < Py.MAXORDINAL ->
   snd (run (get_stock symbol date) env)
   = [CallDownload symbol (Py.date_isoformat (d - 40)) (Py.date_isoformat (d + 1))]) /\
  (~ 40 < d < Py.MAXORDINAL ->
   run (get_stock symbol date) env = (Raise (Uncaught "OverflowError"), [])).
Proof.
  intros Hd. split.
  - intros Hr. now rewrite (get_stock_in_window _ _ _ _ Hd Hr).
  - intros Hr. rewrite get_stock_run, Hd.
    destruct (Py.date_add_days d (-40)) as [start|] eqn:Es; [|reflexivity].
    destruct (Py.date_add_days d 1) as [end_|] eqn:Ee; [|reflexivity].
    apply date_add_days_inv in Es as [_ Hs], Ee as [_ He]. lia.
Qed.

Lemma get_stock_window_witness :
  snd (run (get_stock "EC" "2024-01-15") Sample.market)
    = [CallDownload "EC" "2023-12-06" "2024-01-16"] /\
  run (get_stock "EC" "0001-02-09") Sample.market
    = (Raise (Uncaught "OverflowError"), []) /\
  run (get_stock "EC" "9999-12-31") Sample.market
    = (Raise (Uncaught "OverflowError"), []).
Proof.
  split; [|split].
  - apply (get_stock_window Sample.market "EC" "2024-01-15" 738900);
      [reflexivity | vm_compute; split; reflexivity].
  - apply (get_stock_window Sample.market "EC" "0001-02-09" 40);
      [reflexivity | vm_compute; intros [H _]; discriminate].
  - apply (get_stock_window Sample.market "EC" "9999-12-31" 3652059);
      [reflexivity | vm_compute; intros [_ H]; discriminate].
Defined.

(** X3.  Behind every response of [/stocks] there is one row of the
    fetched frame: the only row of its date, on or before the requested
    date, no other row on or before that date being later; the close,
    open, high, low and volume of the response are its cells, and the
    symbol is the one of the request. *)
Theorem get_stock_latest_row env symbol date resp :
  outcome (get_stock symbol date) env = Ok resp ->
  exists d r,
    Py.strptime_date date = Some d /\
    In r (fetched env symbol d) /\ row_date r <= d /\
    (forall x, In x (fetched env symbol d) -> row_date x <= d ->
               row_date x <= row_date r) /\
    (forall x, In x (fetched env symbol d) -> row_date x = row_date r -> x = r) /\
    sr_symbol resp = symbol /\
    sr_close resp = Close r /\ sr_open resp = Some (Open r) /\
    sr_high resp = Some (High r) /\ sr_low resp = Some (Low r) /\
    sr_volume resp = Some (Volume r).
Proof.
  intros Hok.
  destruct (get_stock_Ok_inv _ _ _ _ Hok) as (d & Hd & Hr & Hm).
  destruct (stock_metrics_Ok_inv _ _ _ _ Hm) as (x & Hx & Hle).
  destruct (stock_metrics_prior symbol d _ x Hx Hle) as (idx & Hidx & _ & Hinv).
  destruct (Hinv _ Hm) as (c & o & h & l & v & cy & cw & cm
                           & Ec & Eo & Eh & El & Ev & _ & _ & _ & ->).
  apply float_at_inv in Ec as (r & Hf & ->).
  apply float_at_inv in Eo as (r1 & Hf1 & ->).
  apply float_at_inv in Eh as (r2 & Hf2 & ->).
  apply float_at_inv in El as (r3 & Hf3 & ->).
  apply float_at_inv in Ev as (r4 & Hf4 & ->).
  rewrite Hf in Hf1, Hf2, Hf3, Hf4.
  injection Hf1 as <-. injection Hf2 as <-. injection Hf3 as <-. injection Hf4 as <-.
  apply filter_singleton in Hf as (Hin & Hdate & Huniq). apply Z.eqb_eq in Hdate.
  pose proof (latest_sorted_max _ _ _ (sort_index_sorted _) Hidx) as Hmax.
  apply latest_Some_In in Hidx as (Hidx & _).
  exists d, r. simpl. repeat split; try assumption.
  - now apply sort_index_In.
  - lia.
  - intros y Hy Hyd. rewrite Hdate. apply Hmax; [|exact Hyd].
    now apply sort_index_In.
  - intros y Hy Hyr. apply Huniq; [now apply sort_index_In|].
    apply Z.eqb_eq. lia.
Qed.

Lemma get_stock_latest_row_witness :
  exists resp d r,
    outcome (get_stock "EC" "2024-01-14") Sample.market = Ok resp /\
    Py.strptime_date "2024-01-14" = Some d /\
    In r (fetched Sample.market "EC" d) /\ row_date r <= d /\
    sr_close resp = Close r /\ sr_volume resp = Some (Volume r).
Proof.
  destruct (get_stock_latest_row Sample.market "EC" "2024-01-14" _ eq_refl)
    as (d & r & Hd & Hin & Hle & _ & _ & _ & Hc & _ & _ & _ & Hv).
  eexists. exists d, r. split; [reflexivity|]. repeat split; assumption.
Defined.



(** ** [/stocks]: the order of the rows *)

Section RowOrder.

Lemma filter_perm {A} (f : A -> bool) (l l' : list A) :
  Permutation l l' -> Permutation (List.filter f l) (List.filter f l').
Proof.
  induction 1 as [|x l l' _ IH|x y l|l l' l'' _ IH1 _ IH2]; simpl.
  - constructor.
  - destruct (f x); [now apply perm_skip | exact IH].
  - destruct (f x), (f y); try reflexivity. apply perm_swap.
  - now transitivity (List.filter f l').
Qed.

Lemma float_at_perm (l l' : DataFrame) idx (column : row -> Q) :
  Permutation l l' -> float_at l idx column = float_at l' idx column.
Proof.
  intros Hp. unfold float_at.
  pose proof (filter_perm (fun r => row_date r =? idx) _ _ Hp) as Hf.
  destruct (List.filter _ l) as [|a [|b t]].
  - apply Permutation_nil in Hf. now rewrite Hf.
  - apply Permutation_length_1_inv in Hf. now rewrite Hf.
  - pose proof (Permutation_length Hf) as Hlen.
    destruct (List.filter _ l') as [|a' [|b' t']]; simpl in Hlen;
      try discriminate. reflexivity.
Qed.

Lemma latest_perm (l l' : DataFrame) d :
  Permutation l l' ->
  latest_on_or_before (sort_index l) d = latest_on_or_before (sort_index l') d.
Proof.
  intros Hp.
  assert (Hin : forall x, In x (sort_index l) <-> In x (sort_index l')).
  { intros x. rewrite !sort_index_In. split; apply Permutation_in;
      [exact Hp | now symmetry]. }
  destruct (latest_on_or_before (sort_index l) d) as [r|] eqn:E;
    destruct (latest_on_or_before (sort_index l') d) as [r'|] eqn:E';
    [| | |reflexivity].
  - pose proof (latest_sorted_max _ _ _ (sort_index_sorted l) E) as Hmax.
    pose proof (latest_sorted_max _ _ _ (sort_index_sorted l') E') as Hmax'.
    apply latest_Some_In in E as (Hle & x & Hx & <-).
    apply latest_Some_In in E' as (Hle' & x' & Hx' & <-).
    f_equal. apply Z.le_antisymm.
    + apply Hmax'; [now apply Hin | exact Hle].
    + apply Hmax; [now apply Hin | exact Hle'].
  - apply latest_Some_In in E as (Hle & x & Hx & <-).
    pose proof (proj1 (latest_None _ _) E' x (proj1 (Hin x) Hx)). lia.
  - apply latest_Some_In in E' as (Hle & x & Hx & <-).
    pose proof (proj1 (latest_None _ _) E x (proj2 (Hin x) Hx)). lia.
Qed.

Lemma sort_index_perm_both (l l' : DataFrame) :
  Permutation l l' -> Permutation (sort_index l) (sort_index l').
Proof.
  intros Hp. rewrite <- (sort_index_perm l), <- (sort_index_perm l'). exact Hp.
Qed.

Lemma get_close_at_perm (l l' : DataFrame) d k :
  Permutation l l' ->
  get_close_at (sort_index l) d k = get_close_at (sort_index l') d k.
Proof.
  intros Hp. unfold get_close_at.
  destruct (Py.date_add_days d (- k)) as [ref|]; simpl; [|reflexivity].
  rewrite (latest_perm _ _ ref Hp).
  destruct (latest_on_or_before (sort_index l') ref) as [idx|]; [|reflexivity].
  now rewrite (float_at_perm _ _ idx Close (sort_index_perm_both _ _ Hp)).
Qed.

Lemma stock_metrics_perm symbol d (l l' : DataFrame) :
  Permutation l l' -> stock_metrics symbol d l = stock_metrics symbol d l'.
Proof.
  intros Hp. unfold stock_metrics.
  destruct l as [|r0 l0].
  { apply Permutation_nil in Hp. now subst. }
  destruct l' as [|r0' l0'].
  { symmetry in Hp. apply Permutation_nil in Hp. discriminate. }
  cbv iota.
  rewrite (latest_perm _ _ d Hp).
  destruct (latest_on_or_before (sort_index (r0' :: l0')) d) as [idx|];
    [|reflexivity].
  pose proof (sort_index_perm_both _ _ Hp) as Hs.
  rewrite (float_at_perm _ _ idx Close Hs), (float_at_perm _ _ idx Open Hs),
    (float_at_perm _ _ idx High Hs), (float_at_perm _ _ idx Low Hs),
    (float_at_perm _ _ idx Volume Hs).
  rewrite (get_close_at_perm _ _ d 1 Hp), (get_close_at_perm _ _ d 7 Hp),
    (get_close_at_perm _ _ d 30 Hp).
  reflexivity.
Qed.

End RowOrder.

(** X6.  The order in which the price provider returns the rows does not
    matter: two providers whose frames hold the same rows, in any order,
    give the same outcome and the same call. *)
Theorem get_stock_row_order env env' symbol date :
  (forall s a b, Permutation (yf_download env s a b) (yf_download env' s a b)) ->
  run (get_stock symbol date) env = run (get_stock symbol date) env'.
Proof.
  intros Hp. rewrite !get_stock_run.
  destruct (Py.strptime_date date) as [d|]; [|reflexivity].
  destruct (Py.date_add_days d (-40)) as [start|]; [|reflexivity].
  destruct (Py.date_add_days d 1) as [end_|]; [|reflexivity].
  f_equal. apply stock_metrics_perm, Hp.
Qed.

Lemma get_stock_row_order_witness :
  run (get_stock "EC" "2024-01-15") Sample.market
  = run (get_stock "EC" "2024-01-15") Cases.market_reversed.
Proof.
  apply (get_stock_row_order Sample.market Cases.market_reversed).
  intros s a b. simpl. apply Permutation_rev.
Defined.

(** ** [/news]: items, failures and the provider's list *)

Section NewsMore.

Lemma news_item_fields a item :
  news_item a = Ok item ->
  (a !! "title" = Some (JStr (ni_title item)) \/
   a !! "title" = None /\ ni_title item = "") /\
  (a !! "url" = Some (JStr (ni_url item)) \/
   a !! "url" = None /\ ni_url item = "") /\
  ni_source item = a !! "sourceCountry" ≫= optional_str /\
  ni_language item = a !! "language" ≫= optional_str /\
  ni_datetime item = a !! "seendate" ≫= optional_str.
Proof.
  unfold news_item, dict_get.
  destruct (a !! "title") as [[|t]|]; simpl; [discriminate| |];
    (destruct (a !! "url") as [[|u]|]; simpl; [discriminate| |]);
    intros [= <-]; simpl;
    (split; [auto|]); (split; [auto|]);
    destruct (a !! "sourceCountry"), (a !! "language"), (a !! "seendate");
    simpl; auto.
Qed.

Lemma news_item_total a :
  a !! "title" <> Some JNull -> a !! "url" <> Some JNull ->
  exists item, news_item a = Ok item.
Proof.
  unfold news_item, dict_get. intros Ht Hu.
  destruct (a !! "title") as [[|t]|]; [congruence| |];
    (destruct (a !! "url") as [[|u]|]; [congruence| |]);
    simpl; eauto.
Qed.

Lemma news_item_null a :
  a !! "title" = Some JNull \/ a !! "url" = Some JNull ->
  news_item a = Raise (Uncaught "ValidationError").
Proof.
  unfold news_item, dict_get. intros [H|H]; rewrite H; simpl; [reflexivity|].
  destruct (a !! "title") as [[|t]|]; reflexivity.
Qed.

Lemma mapR_news_item_total raw :
  Forall (fun a => a !! "title" <> Some JNull /\ a !! "url" <> Some JNull) raw ->
  exists items, mapR news_item raw = Ok items.
Proof.
  induction 1 as [|a l [Ht Hu] _ [items IH]]; simpl; [now exists []|].
  destruct (news_item_total a Ht Hu) as [item ->]. simpl. rewrite IH. simpl.
  now eexists.
Qed.

Lemma mapR_news_item_null raw a :
  In a raw -> a !! "title" = Some JNull \/ a !! "url" = Some JNull ->
  mapR news_item raw = Raise (Uncaught "ValidationError").
Proof.
  intros Hin Hnull. induction raw as [|b l IH]; [contradiction|]. simpl.
  destruct (news_item b) as [item|e] eqn:Eb; simpl.
  - destruct Hin as [->|Hin].
    + rewrite (news_item_null _ Hnull) in Eb. discriminate.
    + now rewrite (IH Hin).
  - apply news_item_Raise in Eb. now subst.
Qed.

End NewsMore.

(** X7.  A response of [/news] carries the keyword and the date string of
    the request as they were sent, and one item for each raw article of
    the provider, in the same order: the title and the URL of the article
    (the empty string for a missing key), its [sourceCountry] as source,
    its [language], and its [seendate] as datetime, each absent when the
    key is missing or null. *)
Theorem get_news_items env keyword date maxrecords resp :
  outcome (get_news keyword date maxrecords) env = Ok resp ->
  nr_keyword resp = keyword /\ nr_date resp = date /\
  exists d r data raw,
    Py.strptime_date date = Some d /\
    requests_get env GDELT_URL (news_params keyword d maxrecords) = Responded r /\
    json r = Some data /\ raw_articles_of data = TList raw /\
    List.length (nr_articles resp) = List.length raw /\
    Forall2 (fun a item =>
               (a !! "title" = Some (JStr (ni_title item)) \/
                a !! "title" = None /\ ni_title item = "") /\
               (a !! "url" = Some (JStr (ni_url item)) \/
                a !! "url" = None /\ ni_url item = "") /\
               ni_source item = a !! "sourceCountry" ≫= optional_str /\
               ni_language item = a !! "language" ≫= optional_str /\
               ni_datetime item = a !! "seendate" ≫= optional_str)
      raw (nr_articles resp).
Proof.
  intros Hok.
  destruct (get_news_Ok_inv _ _ _ _ _ Hok)
    as (d & r & data & raw & Hd & Hr & _ & Hj & Hraw & Hm & Hk & Hdate).
  split; [exact Hk|]. split; [exact Hdate|].
  exists d, r, data, raw. repeat (split; [assumption|]).
  apply mapR_Forall2 in Hm. split.
  - symmetry. exact (Forall2_length _ _ _ Hm).
  - eapply Forall2_impl; [exact Hm|]. intros a item Ha. simpl in Ha.
    now apply news_item_fields.
Qed.

Lemma get_news_items_witness :
  exists resp,
    outcome (get_news "Ecopetrol" "2024-1-5" 50)
      (Sample.gdelt 200 [Sample.article; Sample.untitled]) = Ok resp /\
    nr_keyword resp = "Ecopetrol" /\ nr_date resp = "2024-1-5" /\
    List.map ni_title (nr_articles resp) = ["Ecopetrol sube"; ""].
Proof.
  eexists.
  split; [vm_compute; reflexivity|].
  destruct (get_news_items (Sample.gdelt 200 [Sample.article; Sample.untitled])
              "Ecopetrol" "2024-1-5" 50 _ eq_refl) as (Hk & Hd & _).
  split; [exact Hk|]. split; [exact Hd | reflexivity].
Defined.

(** X8.  Once the provider has answered 200 with a list of raw articles,
    [/news] succeeds when no article has a null title or a null URL; one
    article with a null title or URL makes the whole request fail, on the
    validation of the item, with an exception that is not caught. *)
Theorem get_news_null_field env keyword date maxrecords d r data raw :
  Py.strptime_date date = Some d ->
  requests_get env GDELT_URL (news_params keyword d maxrecords) = Responded r ->
  status_code r = 200 ->
  json r = Some data ->
  raw_articles_of data = TList raw ->
  (Forall (fun a => a !! "title" <> Some JNull /\ a !! "url" <> Some JNull) raw ->
   exists resp, outcome (get_news keyword date maxrecords) env = Ok resp) /\
  (forall a, In a raw ->
     a !! "title" = Some JNull \/ a !! "url" = Some JNull ->
     outcome (get_news keyword date maxrecords) env
       = Raise (Uncaught "ValidationError")).
Proof.
  intros Hd Hr Hs Hj Hraw. unfold outcome. rewrite get_news_run, Hd. simpl.
  rewrite Hr, Hs. simpl. rewrite Hj, Hraw. split.
  - intros Hall. destruct (mapR_news_item_total raw Hall) as [items ->].
    simpl. now eexists.
  - intros a Hin Hnull. now rewrite (mapR_news_item_null raw a Hin Hnull).
Qed.

Lemma get_news_null_field_witness :
  (exists resp,
     outcome (get_news "Ecopetrol" "2024-01-15" 50)
       (Sample.gdelt 200 [Sample.article; Sample.untitled]) = Ok resp) /\
  outcome (get_news "Ecopetrol" "2024-01-15" 50)
    (Sample.gdelt 200 [Sample.article; Cases.nameless])
  = Raise (Uncaught "ValidationError").
Proof.
  split.
  - apply (get_news_null_field
             (Sample.gdelt 200 [Sample.article; Sample.untitled])
             "Ecopetrol" "2024-01-15" 50 738900 _ _
             [Sample.article; Sample.untitled]
             eq_refl eq_refl eq_refl eq_refl eq_refl).
    repeat constructor; vm_compute; discriminate.
  - apply (proj2 (get_news_null_field
                    (Sample.gdelt 200 [Sample.article; Cases.nameless])
                    "Ecopetrol" "2024-01-15" 50 738900 _ _
                    [Sample.article; Cases.nameless]
                    eq_refl eq_refl eq_refl eq_refl eq_refl) Cases.nameless).
    + right. left. reflexivity.
    + left. reflexivity.
Defined.

(** X9.  Once the provider has answered 200 with a JSON object, a
    missing [articles] key gives a response with no article, and a null
    [articles] value an exception that is not caught. *)
Theorem get_news_no_list env keyword date maxrecords d r data :
  Py.strptime_date date = Some d ->
  requests_get env GDELT_URL (news_params keyword d maxrecords) = Responded r ->
  status_code r = 200 ->
  json r = Some data ->
  (data !! "articles" = None ->
   outcome (get_news keyword date maxrecords) env
     = Ok {| nr_keyword := keyword; nr_date := date; nr_articles := [] |}) /\
  (data !! "articles" = Some TNull ->
   outcome (get_news keyword date maxrecords) env = Raise (Uncaught "TypeError")).
Proof.
  intros Hd Hr Hs Hj. unfold outcome. rewrite get_news_run, Hd. simpl.
  rewrite Hr, Hs. simpl. rewrite Hj. unfold raw_articles_of, dict_get.
  split; intros ->; reflexivity.
Qed.

Lemma get_news_no_list_witness :
  outcome (get_news "Ecopetrol" "2024-01-15" 50) (Cases.answering ∅)
    = Ok {| nr_keyword := "Ecopetrol"; nr_date := "2024-01-15"; nr_articles := [] |} /\
  outcome (get_news "Ecopetrol" "2024-01-15" 50)
    (Cases.answering {[ "articles" := TNull ]})
    = Raise (Uncaught "TypeError").
Proof.
  split.
  - apply (get_news_no_list (Cases.answering ∅) "Ecopetrol" "2024-01-15" 50
             738900 _ _ eq_refl eq_refl eq_refl eq_refl). reflexivity.
  - apply (get_news_no_list (Cases.answering {[ "articles" := TNull ]})
             "Ecopetrol" "2024-01-15" 50 738900 _ _
             eq_refl eq_refl eq_refl eq_refl). reflexivity.
Defined.

(** X10.  [/news] raises no other [HTTPException] than a 400 or a 502,
    and the 400 exactly when the date does not parse, in which case no
    provider is called. *)
Theorem get_news_bad_date env keyword date maxrecords :
  (forall status detail,
     outcome (get_news keyword date maxrecords) env
       = Raise (HTTPException status detail) ->
     status = 400 \/ status = 502) /\
  (forall detail,
     outcome (get_news keyword date maxrecords) env
       = Raise (HTTPException 400 detail) <->
     Py.strptime_date date = None /\
     detail = "Formato de fecha inválido. Usa YYYY-MM-DD.") /\
  (Py.strptime_date date = None ->
   run (get_news keyword date maxrecords) env = (Raise BAD_DATE, [])).
Proof.
  unfold outcome. rewrite get_news_run.
  destruct (Py.strptime_date date) as [d|]; simpl.
  - assert (H : forall status detail,
              match requests_get env GDELT_URL (news_params keyword d maxrecords) with
              | Responded r =>
                  if status_code r =? 200
                  then match json r with
                       | Some data =>
                           match raw_articles_of data with
                           | TNull => Raise (Uncaught "TypeError")
                           | TList raw =>
                               mapR news_item raw
                               ≫= (fun articles =>
                                     mret {| nr_keyword := keyword;
                                             nr_date := date;
                                             nr_articles := articles |})
                           end
                       | None => Raise (Uncaught "JSONDecodeError")
                       end
                  else Raise GDELT_ERROR
              | Failed kind => Raise (Uncaught kind)
              end = Raise (HTTPException status detail) -> status = 502).
    { intros status detail.
      destruct (requests_get env _ _) as [r|kind]; [|discriminate].
      destruct (status_code r =? 200); [|intros [= <- _]; reflexivity].
      destruct (json r) as [data|]; [|discriminate].
      destruct (raw_articles_of data) as [|raw]; [discriminate|].
      destruct (mapR news_item raw) as [items|e] eqn:Em; simpl; [discriminate|].
      apply mapR_news_item_Raise in Em. subst e. discriminate. }
    split; [|split].
    + intros status detail E. right. exact (H _ _ E).
    + intros detail. split; [|intros [? _]; discriminate].
      intros E. apply H in E. discriminate.
    + discriminate.
  - split; [|split].
    + intros status detail [= <- _]. now left.
    + intros detail. split; [intros [= <-]; now split|].
      intros [_ ->]. reflexivity.
    + reflexivity.
Qed.

Lemma get_news_bad_date_witness :
  run (get_news "Ecopetrol" "2024-02-30" 50) (Sample.gdelt 200 [])
  = (Raise BAD_DATE, []).
Proof.
  apply (get_news_bad_date (Sample.gdelt 200 []) "Ecopetrol" "2024-02-30" 50).
  reflexivity.
Defined.

(** ** [/tweets]: errors and the provider's list *)

Section TweetsMore.

Lemma get_tweets_run env key keyword date n :
  key <> "" ->
  run (get_tweets key keyword date n) env =
  (match requests_get env SERPAPI_URL (tweets_params key keyword n) with
   | Failed kind => Raise (Uncaught kind)
   | Responded r =>
       if status_code r =? 200 then
         match json r with
         | None => Raise (Uncaught "JSONDecodeError")
         | Some data =>
             Ok {| tr_keyword := keyword;
                   tr_date := date;
                   tr_tweets := omap (tweet_candidate date) (organic_results data) |}
         end
       else Raise (serpapi_error r)
   end,
   [CallGet SERPAPI_URL (tweets_params key keyword n)]).
Proof.
  intros Hk. unfold run, get_tweets.
  destruct key as [|k0 key]; [congruence|].
  unfold mbind, M_bind, http_get.
  destruct (requests_get env _ _) as [r|kind]; simpl; [|reflexivity].
  destruct (status_code r =? 200); simpl; [|reflexivity].
  unfold or_raise, liftR. destruct (json r) as [data|]; reflexivity.
Qed.

Lemma take_length n s :
  String.length (Py.take n s) = Nat.min n (String.length s).
Proof.
  revert s. induction n as [|n IH]; intros [|c s]; simpl; try reflexivity.
  now rewrite IH.
Qed.

Lemma take_prefix n s : String.prefix (Py.take n s) s = true.
Proof.
  revert s. induction n as [|n IH]; intros [|c s]; simpl; try reflexivity.
  destruct (Ascii.ascii_dec c c) as [_|Hne]; [apply IH | congruence].
Qed.

End TweetsMore.

(** X11.  [/tweets] raises no other [HTTPException] than a 500 or a 502,
    whatever the date string, and the 500 exactly when the API key is
    empty, in which case no provider is called. *)
Theorem get_tweets_missing_key env key keyword date n :
  (forall status detail,
     outcome (get_tweets key keyword date n) env
       = Raise (HTTPException status detail) ->
     status = 500 \/ status = 502) /\
  (forall detail,
     outcome (get_tweets key keyword date n) env
       = Raise (HTTPException 500 detail) <->
     key = "" /\ detail = "Falta configurar SERPAPI_API_KEY en el servidor.") /\
  (key = "" -> run (get_tweets key keyword date n) env = (Raise MISSING_KEY, [])).
Proof.
  destruct (string_dec key "") as [->|Hk].
  - split; [|split].
    + intros status detail [= <- _]. now left.
    + intros detail. split; [intros [= <-]; now split|].
      intros [_ ->]. reflexivity.
    + reflexivity.
  - unfold outcome. rewrite (get_tweets_run _ _ _ _ _ Hk). simpl.
    assert (H : forall status detail,
              match requests_get env SERPAPI_URL (tweets_params key keyword n) with
              | Responded r =>
                  if status_code r =? 200
                  then match json r with
                       | Some data =>
                           Ok {| tr_keyword := keyword;
                                 tr_date := date;
                                 tr_tweets :=
                                   omap (tweet_candidate date) (organic_results data) |}
                       | None => Raise (Uncaught "JSONDecodeError")
                       end
                  else Raise (serpapi_error r)
              | Failed kind => Raise (Uncaught kind)
              end = Raise (HTTPException status detail) -> status = 502).
    { intros status detail.
      destruct (requests_get env _ _) as [r|kind]; [|discriminate].
      destruct (status_code r =? 200); [|intros [= <- _]; reflexivity].
      destruct (json r); discriminate. }
    split; [|split].
    + intros status detail E. right. exact (H _ _ E).
    + intros detail. split; [|intros [? _]; contradiction].
      intros E. apply H in E. discriminate.
    + intros E. contradiction.
Qed.

Lemma get_tweets_missing_key_witness :
  run (get_tweets "" "Ecopetrol" "2024-01-15" 20) (Sample.search 200 [])
  = (Raise MISSING_KEY, []).
Proof.
  apply (get_tweets_missing_key (Sample.search 200 []) "" "Ecopetrol"
           "2024-01-15" 20).
  reflexivity.
Defined.

(** X12.  With an API key, [/tweets] raises its 502 exactly when the
    provider answers with a status other than 200.  The detail is
    [Error SerpAPI <status>: <excerpt>], where the excerpt is a prefix of
    the body of the answer, of at most 200 characters, or [Sin respuesta]
    for an empty body. *)
Theorem get_tweets_upstream env key keyword date n :
  key <> "" ->
  (forall detail,
     outcome (get_tweets key keyword date n) env
       = Raise (HTTPException 502 detail) ->
     exists r,
       requests_get env SERPAPI_URL (tweets_params key keyword n) = Responded r /\
       status_code r <> 200) /\
  (forall r,
     requests_get env SERPAPI_URL (tweets_params key keyword n) = Responded r ->
     status_code r <> 200 ->
     exists excerpt,
       outcome (get_tweets key keyword date n) env
         = Raise (HTTPException 502
                    ("Error SerpAPI " ++ Py.str (status_code r) ++ ": " ++ excerpt)) /\
       (text r = "" -> excerpt = "Sin respuesta") /\
       (text r <> "" ->
        String.prefix excerpt (text r) = true /\
        String.length excerpt = Nat.min 200 (String.length (text r)))).
Proof.
  intros Hk. unfold outcome. rewrite (get_tweets_run _ _ _ _ _ Hk). simpl. split.
  - intros detail.
    destruct (requests_get env _ _) as [r|kind]; [|discriminate].
    destruct (Z.eqb_spec (status_code r) 200) as [Hs|Hs].
    + destruct (json r); discriminate.
    + intros _. now exists r.
  - intros r -> Hs.
    destruct (Z.eqb_spec (status_code r) 200) as [|_]; [contradiction|].
    unfold serpapi_error. destruct (text r) as [|c t] eqn:Et.
    + exists "Sin respuesta". split; [reflexivity|]. split; [reflexivity|].
      congruence.
    + exists (Py.take 200 (String c t)). split; [reflexivity|].
      split; [discriminate|]. intros _.
      split; [apply take_prefix | apply take_length].
Qed.

Lemma get_tweets_upstream_witness :
  exists excerpt,
    outcome (get_tweets "key" "Ecopetrol" "2024-01-15" 20)
      (Cases.failing_search 429 "Your account has run out of searches.")
    = Raise (HTTPException 502 ("Error SerpAPI 429: " ++ excerpt)) /\
    String.prefix excerpt "Your account has run out of searches." = true.
Proof.
  destruct (proj2 (get_tweets_upstream
                     (Cases.failing_search 429 "Your account has run out of searches.")
                     "key" "Ecopetrol" "2024-01-15" 20 ltac:(discriminate))
              _ eq_refl ltac:(discriminate)) as (excerpt & E & _ & Hp).
  exists excerpt. split; [exact E|]. apply Hp. discriminate.
Defined.

(** X13.  Once the provider has answered 200 with a JSON object, a
    missing [organic_results] key and a null [organic_results] value both
    give a response with no tweet. *)
Theorem get_tweets_no_list env key keyword date n r data :
  key <> "" ->
  requests_get env SERPAPI_URL (tweets_params key keyword n) = Responded r ->
  status_code r = 200 ->
  json r = Some data ->
  data !! "organic_results" = None \/ data !! "organic_results" = Some TNull ->
  outcome (get_tweets key keyword date n) env
    = Ok {| tr_keyword := keyword; tr_date := date; tr_tweets := [] |}.
Proof.
  intros Hk Hr Hs Hj Hd. unfold outcome. rewrite (get_tweets_run _ _ _ _ _ Hk).
  simpl. rewrite Hr, Hs. simpl. rewrite Hj.
  unfold organic_results, dict_get. destruct Hd as [->| ->]; reflexivity.
Qed.

Lemma get_tweets_no_list_witness :
  outcome (get_tweets "key" "Ecopetrol" "2024-01-15" 20)
    (Cases.answering {[ "organic_results" := TNull ]})
  = Ok {| tr_keyword := "Ecopetrol"; tr_date := "2024-01-15"; tr_tweets := [] |}.
Proof.
  apply (get_tweets_no_list (Cases.answering {[ "organic_results" := TNull ]})
           "key" "Ecopetrol" "2024-01-15" 20 _ _
           ltac:(discriminate) eq_refl eq_refl eq_refl).
  right. reflexivity.
Defined.

(** ** [/tweets]: the items of a response *)

Section TweetItems.

Lemma In_omap {A B} (f : A -> option B) (l : list A) (y : B) :
  In y (omap f l) -> exists x, In x l /\ f x = Some y.
Proof.
  induction l as [|a l IH]; simpl; [contradiction|].
  destruct (f a) as [b|] eqn:Ea.
  - intros [<-|Hin]; [exists a; auto|].
    destruct (IH Hin) as (x & Hx & Hfx). exists x. auto.
  - intros Hin. destruct (IH Hin) as (x & Hx & Hfx). exists x. auto.
Qed.

Lemma omap_length_le {A B} (f : A -> option B) (l : list A) :
  (List.length (omap f l) <= List.length l)%nat.
Proof.
  induction l as [|a l IH]; simpl; [constructor|].
  destruct (f a); simpl; [apply le_n_S, IH | apply le_S, IH].
Qed.

Lemma append_not_empty (s1 s2 : string) : s2 <> "" -> s1 ++ s2 <> "".
Proof. destruct s1; simpl; [tauto | discriminate]. Qed.

Lemma datetime_isoformat_date dt :
  exists rest,
    Py.datetime_isoformat dt = Py.date_isoformat (Py.dt_date dt) ++ "T" ++ rest.
Proof. unfold Py.datetime_isoformat. now eexists. Qed.

Lemma datetime_isoformat_not_empty dt : Py.datetime_isoformat dt <> "".
Proof.
  destruct (datetime_isoformat_date dt) as [rest ->].
  apply append_not_empty. discriminate.
Qed.

Lemma str_or_not_empty a b : b <> "" -> str_or a b <> "".
Proof. destruct a; simpl; [tauto | discriminate]. Qed.

(** What an emitted item says of the result it comes from. *)
Lemma tweet_candidate_Some date c item :
  tweet_candidate date c = Some item ->
  platform_ok (get_str c "link") (get_str c "source") = true /\
  ti_url item = Some (get_str c "link") /\
  ti_user item <> "" /\
  ti_text item = str_or (get_str c "snippet") (get_str c "title") /\
  match derived_timestamp (get_str c "link") with
  | None => ti_created_at item = ""
  | Some dt =>
      ti_created_at item = Py.datetime_isoformat dt /\
      forall d, Py.strptime_date date = Some d -> Py.dt_date dt = d
  end.
Proof.
  unfold tweet_candidate, tweet_date_ok.
  destruct (platform_ok _ _); simpl; [|discriminate].
  destruct (derived_timestamp _) as [dt|]; simpl.
  - destruct (Py.strptime_date date) as [td|]; simpl.
    + destruct (Z.eqb_spec (Py.dt_date dt) td) as [E|E]; simpl; [|discriminate].
      intros [= <-]. simpl. repeat split.
      * apply str_or_not_empty, str_or_not_empty. discriminate.
      * intros d [= <-]. exact E.
    + intros [= <-]. simpl. repeat split.
      * apply str_or_not_empty, str_or_not_empty. discriminate.
      * discriminate.
  - intros [= <-]. simpl. repeat split.
    apply str_or_not_empty, str_or_not_empty. discriminate.
Qed.

(** The item of a result does not depend on the date string, which only
    decides whether the result is dropped. *)
Lemma tweet_candidate_permissive date date' c item :
  Py.strptime_date date' = None ->
  tweet_candidate date c = Some item -> tweet_candidate date' c = Some item.
Proof.
  intros Hbad. unfold tweet_candidate, tweet_date_ok. rewrite Hbad.
  destruct (platform_ok _ _); simpl; [|discriminate].
  destruct (derived_timestamp _) as [dt|]; simpl; [|tauto].
  destruct (Py.strptime_date date) as [td|]; simpl; [|tauto].
  destruct (Py.dt_date dt =? td); simpl; [tauto | discriminate].
Qed.

Lemma omap_permissive date date' (l : list (gmap string jval)) :
  Py.strptime_date date' = None ->
  sublist (omap (tweet_candidate date) l) (omap (tweet_candidate date') l).
Proof.
  intros Hbad. induction l as [|c l IH]; simpl; [constructor|].
  destruct (tweet_candidate date c) as [item|] eqn:E.
  - rewrite (tweet_candidate_permissive _ _ _ _ Hbad E). now constructor.
  - destruct (tweet_candidate date' c); [now constructor | exact IH].
Qed.

End TweetItems.

(** X14.  In a response of [/tweets] for a date that parses, every tweet
    that has a [created_at] is dated on the requested day: the text starts
    with the ISO form of that day followed by [T]. *)
Theorem get_tweets_dated_on_request env key keyword date n resp d :
  outcome (get_tweets key keyword date n) env = Ok resp ->
  Py.strptime_date date = Some d ->
  Forall (fun item =>
            ti_created_at item = "" \/
            exists rest, ti_created_at item = Py.date_isoformat d ++ "T" ++ rest)
    (tr_tweets resp).
Proof.
  intros Hok Hd.
  destruct (get_tweets_Ok_inv _ _ _ _ _ _ Hok) as (r & data & _ & _ & _ & ->).
  simpl. apply List.Forall_forall. intros item Hin.
  apply In_omap in Hin as (c & _ & Hc).
  apply tweet_candidate_Some in Hc as (_ & _ & _ & _ & Hdt).
  destruct (derived_timestamp _) as [dt|]; [|now left].
  destruct Hdt as [-> Hdate]. right.
  rewrite <- (Hdate d Hd). apply datetime_isoformat_date.
Qed.

Lemma get_tweets_dated_on_request_witness :
  exists resp,
    outcome (get_tweets "key" "Ecopetrol" "2020-03-02" 20)
      (Sample.search 200 [Sample.post; Sample.elsewhere; Sample.profile]) = Ok resp /\
    Forall (fun item =>
              ti_created_at item = "" \/
              exists rest, ti_created_at item = "2020-03-02" ++ "T" ++ rest)
      (tr_tweets resp).
Proof.
  eexists. split; [vm_compute; reflexivity|].
  exact (get_tweets_dated_on_request
           (Sample.search 200 [Sample.post; Sample.elsewhere; Sample.profile])
           "key" "Ecopetrol" "2020-03-02" 20 _ 737486 eq_refl eq_refl).
Defined.

(** X15.  A response of [/tweets] carries the keyword and the date string
    of the request as they were sent.  Each of its tweets comes from a
    result of the provider that passes the platform test: its [url] is the
    link of that result, its [user] is never empty, and its [created_at]
    is empty exactly when no timestamp is derived from the link. *)
Theorem get_tweets_items env key keyword date n resp :
  outcome (get_tweets key keyword date n) env = Ok resp ->
  tr_keyword resp = keyword /\ tr_date resp = date /\
  exists r data,
    requests_get env SERPAPI_URL (tweets_params key keyword n) = Responded r /\
    json r = Some data /\
    (List.length (tr_tweets resp) <= List.length (organic_results data))%nat /\
    Forall (fun item =>
              ti_user item <> "" /\
              exists c,
                In c (organic_results data) /\
                platform_ok (get_str c "link") (get_str c "source") = true /\
                ti_url item = Some (get_str c "link") /\
                (ti_created_at item = "" <->
                 derived_timestamp (get_str c "link") = None))
      (tr_tweets resp).
Proof.
  intros Hok.
  destruct (get_tweets_Ok_inv _ _ _ _ _ _ Hok) as (r & data & Hr & _ & Hj & ->).
  simpl. split; [reflexivity|]. split; [reflexivity|].
  exists r, data. split; [exact Hr|]. split; [exact Hj|]. split.
  - apply omap_length_le.
  - apply List.Forall_forall. intros item Hin.
    apply In_omap in Hin as (c & Hc & Hitem).
    apply tweet_candidate_Some in Hitem as (Hp & Hu & Hne & _ & Hdt).
    split; [exact Hne|]. exists c. repeat (split; [assumption|]).
    destruct (derived_timestamp _) as [dt|].
    + destruct Hdt as [-> _]. split; [|discriminate].
      intros E. now apply datetime_isoformat_not_empty in E.
    + split; [reflexivity | intros _; exact Hdt].
Qed.

Lemma get_tweets_items_witness :
  exists resp,
    outcome (get_tweets "key" "Ecopetrol" "2020-03-02" 20)
      (Sample.search 200 [Sample.post; Sample.elsewhere; Sample.profile]) = Ok resp /\
    tr_date resp = "2020-03-02" /\
    Forall (fun item => ti_user item <> "") (tr_tweets resp).
Proof.
  eexists. split; [vm_compute; reflexivity|].
  destruct (get_tweets_items
              (Sample.search 200 [Sample.post; Sample.elsewhere; Sample.profile])
              "key" "Ecopetrol" "2020-03-02" 20 _ eq_refl)
    as (_ & Hd & r & data & _ & _ & _ & Hall).
  split; [exact Hd|].
  apply List.Forall_forall. intros item Hin.
  rewrite List.Forall_forall in Hall. exact (proj1 (Hall item Hin)).
Defined.

(** X16.  The date only filters: the tweets returned for any date string
    are, in order, among the tweets returned for a date string that does
    not parse, the provider being the same. *)
Theorem get_tweets_date_only_filters env key keyword date date' n resp :
  Py.strptime_date date' = None ->
  outcome (get_tweets key keyword date n) env = Ok resp ->
  exists resp',
    outcome (get_tweets key keyword date' n) env = Ok resp' /\
    sublist (tr_tweets resp) (tr_tweets resp').
Proof.
  intros Hbad Hok.
  assert (Hk : key <> "").
  { intros ->. discriminate. }
  destruct (get_tweets_Ok_inv _ _ _ _ _ _ Hok) as (r & data & Hr & Hs & Hj & ->).
  unfold outcome. rewrite (get_tweets_run _ _ _ _ _ Hk). simpl.
  rewrite Hr, Hs. simpl. rewrite Hj.
  eexists. split; [reflexivity|]. simpl. now apply omap_permissive.
Qed.

Lemma get_tweets_date_only_filters_witness :
  exists resp resp',
    outcome (get_tweets "key" "Ecopetrol" "2024-01-15" 20)
      (Sample.search 200 [Sample.post; Sample.elsewhere; Sample.profile]) = Ok resp /\
    outcome (get_tweets "key" "Ecopetrol" "ayer" 20)
      (Sample.search 200 [Sample.post; Sample.elsewhere; Sample.profile]) = Ok resp' /\
    List.length (tr_tweets resp) = 1%nat /\
    List.length (tr_tweets resp') = 2%nat /\
    sublist (tr_tweets resp) (tr_tweets resp').
Proof.
  destruct (get_tweets_date_only_filters
              (Sample.search 200 [Sample.post; Sample.elsewhere; Sample.profile])
              "key" "Ecopetrol" "2024-01-15" "ayer" 20 _ eq_refl eq_refl)
    as (resp' & E' & Hsub).
  eexists. exists resp'. split; [reflexivity|]. split; [exact E'|].
  split; [reflexivity|]. split; [|exact Hsub].
  vm_compute in E'. injection E' as <-. reflexivity.
Defined.

(** ** [/tweets]: the platform test *)

Section Substrings.

Lemma prefix_spec sub s :
  String.prefix sub s = true <-> exists post, s = sub ++ post.
Proof.
  revert s. induction sub as [|c sub IH]; intros s.
  - split; [intros _; now exists s | destruct s; reflexivity].
  - destruct s as [|c' s]; simpl.
    + split; [discriminate | intros [post H]; discriminate].
    + destruct (Ascii.ascii_dec c c') as [->|Hne].
      * rewrite IH. split; intros [post H]; exists post.
        -- rewrite H. reflexivity.
        -- change (String c' sub ++ post) with (String c' (sub ++ post)) in H.
           congruence.
      * split; [discriminate|]. intros [post H].
        change (String c sub ++ post) with (String c (sub ++ post)) in H.
        congruence.
Qed.

Lemma contains_unfold sub s :
  Py.contains sub s =
  if String.prefix sub s then true
  else match s with
       | EmptyString => false
       | String _ s' => Py.contains sub s'
       end.
Proof. destruct s; reflexivity. Qed.

Lemma contains_spec sub s :
  Py.contains sub s = true <-> exists pre post, s = pre ++ sub ++ post.
Proof.
  split.
  - induction s as [|c s IH]; rewrite contains_unfold.
    + destruct (String.prefix sub "") eqn:E; [|discriminate].
      intros _. apply prefix_spec in E as [post ->]. now exists "", post.
    + destruct (String.prefix sub (String c s)) eqn:E.
      * intros _. apply prefix_spec in E as [post ->]. now exists "", post.
      * intros H. destruct (IH H) as (pre & post & ->).
        now exists (String c pre), post.
  - intros (pre & post & ->). induction pre as [|c pre IH].
    + change ("" ++ sub ++ post) with (sub ++ post). rewrite contains_unfold.
      now rewrite (proj2 (prefix_spec sub (sub ++ post)) (ex_intro _ post eq_refl)).
    + change (String c pre ++ sub ++ post) with (String c (pre ++ sub ++ post)).
      rewrite contains_unfold.
      destruct (String.prefix sub _); [reflexivity | exact IH].
Qed.

End Substrings.

(** X17.  A result passes the platform test exactly when its link has
    [x.com] or [twitter.com] somewhere in it, or its source has a capital
    [X] somewhere in it; so does any link to a site whose name ends in
    [x.com], and any result whose source has a capital [X], whatever its
    link. *)
Theorem platform_ok_substring link source :
  platform_ok link source = true <->
  (exists pre post, link = pre ++ "x.com" ++ post) \/
  (exists pre post, link = pre ++ "twitter.com" ++ post) \/
  (exists pre post, source = pre ++ "X" ++ post).
Proof.
  unfold platform_ok. rewrite <- !contains_spec.
  destruct (Py.contains "x.com" link), (Py.contains "twitter.com" link),
    (Py.contains "X" source); simpl; intuition discriminate.
Qed.

(** ** [/tweets]: the timestamps that can be derived *)

Section Timestamps.

Lemma digit_char_digit d :
  0 <= d <= 9 ->
  Py.is_digit (Py.digit_char d) = true /\ Py.digit_value (Py.digit_char d) = d.
Proof.
  intros H.
  assert (E : d = 0 \/ d = 1 \/ d = 2 \/ d = 3 \/ d = 4 \/ d = 5 \/ d = 6
              \/ d = 7 \/ d = 8 \/ d = 9) by lia.
  repeat (destruct E as [->|E]; [split; reflexivity|]). subst. split; reflexivity.
Qed.

Lemma is_digit_value c : Py.is_digit c = true -> 0 <= Py.digit_value c <= 9.
Proof.
  unfold Py.is_digit, Py.digit_value. intros H.
  apply andb_true_iff in H as [H1 H2].
  apply Nat.leb_le in H1, H2. lia.
Qed.

Lemma int_acc_nonneg s acc :
  Py.all_digits s = true -> 0 <= acc -> 0 <= Py.int_acc acc s.
Proof.
  revert acc. induction s as [|c s IH]; simpl; intros acc Hd Hacc; [exact Hacc|].
  apply andb_true_iff in Hd as [Hc Hs]. apply IH; [exact Hs|].
  pose proof (is_digit_value c Hc). lia.
Qed.

Lemma extract_tweet_id_nonneg link tweet_id :
  extract_tweet_id link = Some tweet_id -> 0 <= tweet_id.
Proof.
  unfold extract_tweet_id.
  destruct (Py.mem _ _); [|discriminate].
  destruct (Py.index _ _) as [idx|]; [|discriminate].
  destruct (_ !! _) as [segment|]; [|discriminate].
  destruct (Py.isdigit _) eqn:Ed; [|discriminate].
  unfold Py.int. destruct (_ <? _)%nat; [discriminate|].
  intros [= <-]. apply int_acc_nonneg; [|lia].
  unfold Py.isdigit in Ed. destruct (List.hd _ _); [discriminate | exact Ed].
Qed.

Lemma derived_timestamp_not_before link dt :
  derived_timestamp link = Some dt -> 734080 <= Py.dt_date dt.
Proof.
  unfold derived_timestamp.
  destruct (extract_tweet_id link) as [tweet_id|] eqn:Ei; [|discriminate].
  apply extract_tweet_id_nonneg in Ei.
  unfold tweet_id_to_datetime, twitter_epoch_ms, Py.utcfromtimestamp_ms.
  destruct (Py.date_in_range _); [|discriminate].
  intros [= <-]. simpl.
  pose proof (Z.shiftr_nonneg tweet_id 22) as Hs. apply Hs in Ei.
  unfold Py.EPOCH_ORDINAL. Z.div_mod_to_equations. lia.
Qed.

End Timestamps.

(** X18.  No timestamp derived from a link is before 2010-11-04, the
    day of the epoch of the identifiers: a response of [/tweets] for an
    earlier day holds only tweets with an empty [created_at]. *)
Theorem get_tweets_before_epoch env key keyword date n resp d :
  outcome (get_tweets key keyword date n) env = Ok resp ->
  Py.strptime_date date = Some d ->
  d < 734080 ->
  Forall (fun item => ti_created_at item = "") (tr_tweets resp).
Proof.
  intros Hok Hd Hlt.
  destruct (get_tweets_Ok_inv _ _ _ _ _ _ Hok) as (r & data & _ & _ & _ & ->).
  simpl. apply List.Forall_forall. intros item Hin.
  apply In_omap in Hin as (c & _ & Hc).
  apply tweet_candidate_Some in Hc as (_ & _ & _ & _ & Hdt).
  destruct (derived_timestamp _) as [dt|] eqn:E; [|exact Hdt].
  destruct Hdt as [_ Hdate]. apply derived_timestamp_not_before in E.
  specialize (Hdate d Hd). lia.
Qed.

Lemma get_tweets_before_epoch_witness :
  Py.date_isoformat 734080 = "2010-11-04" /\
  exists resp,
    outcome (get_tweets "key" "Ecopetrol" "2010-11-03" 20)
      (Sample.search 200 [Sample.post; Sample.elsewhere; Sample.profile]) = Ok resp /\
    Forall (fun item => ti_created_at item = "") (tr_tweets resp).
Proof.
  split; [reflexivity|]. eexists. split; [vm_compute; reflexivity|].
  apply (get_tweets_before_epoch
           (Sample.search 200 [Sample.post; Sample.elsewhere; Sample.profile])
           "key" "Ecopetrol" "2010-11-03" 20 _ 734079);
    reflexivity.
Defined.

(** X19.  For identifiers of 64 bits the timestamp follows the
    identifier: a larger identifier never gives an earlier datetime, two
    identifiers that differ only in their 22 low bits give the same
    datetime, and every datetime is between 2010-11-04 and the year 2150. *)
Theorem tweet_id_to_datetime_monotone (id1 id2 : Z) :
  0 <= id1 -> id1 <= id2 -> id2 < 2 ^ 64 ->
  exists dt1 dt2,
    tweet_id_to_datetime id1 = Some dt1 /\
    tweet_id_to_datetime id2 = Some dt2 /\
    Py.datetime_epoch_ms dt1 <= Py.datetime_epoch_ms dt2 /\
    Py.dt_date dt1 <= Py.dt_date dt2 /\
    734080 <= Py.dt_date dt1 /\ Py.dt_date dt2 <= 784983 /\
    (Z.shiftr id1 22 = Z.shiftr id2 22 -> dt1 = dt2).
Proof.
  intros H0 Hle Hhi.
  assert (Hs : 0 <= Z.shiftr id1 22 <= Z.shiftr id2 22 /\ Z.shiftr id2 22 < 2 ^ 42).
  { rewrite !Z.shiftr_div_pow2 by lia.
    change (2 ^ 64) with 18446744073709551616 in Hhi.
    change (2 ^ 22) with 4194304. change (2 ^ 42) with 4398046511104.
    Z.div_mod_to_equations. lia. }
  change (2 ^ 42) with 4398046511104 in Hs.
  unfold tweet_id_to_datetime, twitter_epoch_ms.
  destruct (Py.utcfromtimestamp_ms (Z.shiftr id1 22 + 1288834974657))
    as [dt1|] eqn:E1.
  2:{ apply utcfromtimestamp_ms_None in E1.
      unfold Py.MIN_EPOCH_MS, Py.MAX_EPOCH_MS, Py.MAXORDINAL, Py.EPOCH_ORDINAL in E1.
      lia. }
  destruct (Py.utcfromtimestamp_ms (Z.shiftr id2 22 + 1288834974657))
    as [dt2|] eqn:E2.
  2:{ apply utcfromtimestamp_ms_None in E2.
      unfold Py.MIN_EPOCH_MS, Py.MAX_EPOCH_MS, Py.MAXORDINAL, Py.EPOCH_ORDINAL in E2.
      lia. }
  exists dt1, dt2. split; [reflexivity|]. split; [reflexivity|].
  pose proof (utcfromtimestamp_ms_Some _ _ E1) as (Hm1 & _ & _).
  pose proof (utcfromtimestamp_ms_Some _ _ E2) as (Hm2 & _ & _).
  split; [lia|].
  assert (Hd1 : Py.dt_date dt1
                = Py.EPOCH_ORDINAL + (Z.shiftr id1 22 + 1288834974657) / 1000 / 86400).
  { unfold Py.utcfromtimestamp_ms in E1. destruct (Py.date_in_range _);
      [|discriminate]. injection E1 as <-. reflexivity. }
  assert (Hd2 : Py.dt_date dt2
                = Py.EPOCH_ORDINAL + (Z.shiftr id2 22 + 1288834974657) / 1000 / 86400).
  { unfold Py.utcfromtimestamp_ms in E2. destruct (Py.date_in_range _);
      [|discriminate]. injection E2 as <-. reflexivity. }
  unfold Py.EPOCH_ORDINAL in Hd1, Hd2.
  split; [rewrite Hd1, Hd2; Z.div_mod_to_equations; lia|].
  split; [rewrite Hd1; Z.div_mod_to_equations; lia|].
  split; [rewrite Hd2; Z.div_mod_to_equations; lia|].
  intros Heq. rewrite Heq in E1. congruence.
Qed.

Lemma tweet_id_to_datetime_monotone_witness :
  Py.date_isoformat 784983 = "2150-03-18" /\
  exists dt1 dt2,
    tweet_id_to_datetime 1234567890123456789 = Some dt1 /\
    tweet_id_to_datetime 1234567890127651092 = Some dt2 /\
    Py.datetime_epoch_ms dt1 <= Py.datetime_epoch_ms dt2.
Proof.
  split; [reflexivity|].
  destruct (tweet_id_to_datetime_monotone 1234567890123456789 1234567890127651092
              ltac:(vm_compute; discriminate) ltac:(vm_compute; discriminate)
              ltac:(vm_compute; reflexivity))
    as (dt1 & dt2 & H1 & H2 & Hle & _).
  exists dt1, dt2. split; [exact H1|]. split; [exact H2 | exact Hle].
Defined.

Lemma platform_ok_substring_witness :
  platform_ok "https://www.netflix.com/title/81040344" "Netflix" = true /\
  platform_ok "https://www.xinhuanet.com/" "Xinhua" = true.
Proof.
  split.
  - apply (platform_ok_substring "https://www.netflix.com/title/81040344" "Netflix").
    left. now exists "https://www.netfli", "/title/81040344".
  - apply (platform_ok_substring "https://www.xinhuanet.com/" "Xinhua").
    right. right. now exists "", "inhua".
Defined.

(** X20.  A request makes at most one outbound call, whatever the
    endpoint, its arguments and the answer of the provider. *)
Theorem single_outbound_call env :
  (forall symbol date,
     (List.length (snd (run (get_stock symbol date) env)) <= 1)%nat) /\
  (forall keyword date maxrecords,
     (List.length (snd (run (get_news keyword date maxrecords) env)) <= 1)%nat) /\
  (forall key keyword date n,
     (List.length (snd (run (get_tweets key keyword date n) env)) <= 1)%nat).
Proof.
  split; [|split].
  - intros symbol date. rewrite get_stock_run.
    destruct (Py.strptime_date date) as [d|]; simpl; [|lia].
    destruct (Py.date_add_days d (-40)), (Py.date_add_days d 1); simpl; lia.
  - intros keyword date maxrecords. rewrite get_news_run.
    destruct (Py.strptime_date date) as [d|]; simpl; lia.
  - intros key keyword date n. destruct (string_dec key "") as [->|Hk].
    + simpl. lia.
    + rewrite (get_tweets_run _ _ _ _ _ Hk). simpl. lia.
Qed.

(** ** [/tweets]: the identifier in a link *)

Section StatusLinks.

Lemma append_cons c (s t : string) : String c s ++ t = String c (s ++ t).
Proof. reflexivity. Qed.

Lemma split_app_sep sep (a b : string) :
  Py.split sep (a ++ String sep b) = (Py.split sep a ++ Py.split sep b)%list.
Proof.
  induction a as [|c a IH].
  - change ("" ++ String sep b) with (String sep b). simpl.
    now rewrite Ascii.eqb_refl.
  - rewrite append_cons. simpl. destruct (Ascii.eqb c sep).
    + now rewrite IH.
    + rewrite IH. destruct (Py.split sep a) as [|w ws] eqn:E;
        [now apply split_not_nil in E | reflexivity].
Qed.

Lemma split_no_sep sep (s : string) :
  ~ In sep (list_ascii_of_string s) -> Py.split sep s = [s].
Proof.
  induction s as [|c s IH]; simpl; [reflexivity|]. intros Hn.
  destruct (Ascii.eqb_spec c sep) as [->|_]; [tauto|].
  rewrite IH by tauto. reflexivity.
Qed.

(** A text without separator, followed by anything: the first piece of
    the split starts with it. *)
Lemma split_app_no_sep sep (a b : string) :
  ~ In sep (list_ascii_of_string a) ->
  Py.split sep (a ++ b)
  = (a ++ List.hd "" (Py.split sep b)) :: List.tl (Py.split sep b).
Proof.
  induction a as [|c a IH]; intros Hn.
  - change ("" ++ b) with b.
    destruct (Py.split sep b) as [|w ws] eqn:E;
      [now apply split_not_nil in E | reflexivity].
  - rewrite append_cons. simpl in Hn |- *.
    destruct (Ascii.eqb_spec c sep) as [->|_]; [tauto|].
    rewrite IH by tauto. reflexivity.
Qed.

Lemma all_digits_chars s c :
  Py.all_digits s = true -> In c (list_ascii_of_string s) -> Py.is_digit c = true.
Proof.
  induction s as [|a s IH]; simpl; [tauto|]. intros Hd [<-|Hin];
    apply andb_true_iff in Hd as [Ha Hs]; [exact Ha | now apply IH].
Qed.

Lemma all_digits_no (s : string) (c : ascii) :
  Py.all_digits s = true -> Py.is_digit c = false ->
  ~ In c (list_ascii_of_string s).
Proof.
  intros Hd Hc Hin. rewrite (all_digits_chars s c Hd Hin) in Hc. discriminate.
Qed.

Lemma int_acc_app (s t : string) acc :
  Py.int_acc acc (s ++ t) = Py.int_acc (Py.int_acc acc s) t.
Proof.
  revert acc. induction s as [|c s IH]; intros acc; [reflexivity|].
  rewrite append_cons. simpl. apply IH.
Qed.

Lemma all_digits_app (s t : string) :
  Py.all_digits (s ++ t) = Py.all_digits s && Py.all_digits t.
Proof.
  induction s as [|c s IH]; [reflexivity|].
  rewrite append_cons. simpl. rewrite IH. now rewrite andb_assoc.
Qed.

Lemma length_app (s t : string) :
  String.length (s ++ t) = (String.length s + String.length t)%nat.
Proof.
  induction s as [|c s IH]; [reflexivity|].
  rewrite append_cons. simpl. now rewrite IH.
Qed.

Lemma append_assoc (s t u : string) : (s ++ t) ++ u = s ++ t ++ u.
Proof.
  induction s as [|c s IH]; [reflexivity|].
  rewrite !append_cons. now rewrite IH.
Qed.

Lemma decimal_fuel_S fuel n acc :
  Py.decimal_fuel (S fuel) n acc =
  if n / 10 =? 0 then String (Py.digit_char (n mod 10)) acc
  else Py.decimal_fuel fuel (n / 10) (String (Py.digit_char (n mod 10)) acc).
Proof. reflexivity. Qed.

(** The digits that [decimal_fuel] puts before its accumulator, given
    fuel enough for the number. *)
Lemma decimal_fuel_digits fuel n acc :
  0 <= n < 2 ^ Z.of_nat (S fuel) ->
  exists s,
    Py.decimal_fuel (S fuel) n acc = s ++ acc /\
    s <> "" /\ Py.all_digits s = true /\
    (String.length s <= S fuel)%nat /\
    forall a, Py.int_acc a s = a * 10 ^ Z.of_nat (String.length s) + n.
Proof.
  revert n acc. induction fuel as [|fuel IH]; intros n acc Hn.
  - change (2 ^ Z.of_nat 1) with 2 in Hn.
    assert (n / 10 = 0 /\ n mod 10 = n) as [Hq Hr]
      by (Z.div_mod_to_equations; lia).
    exists (String (Py.digit_char n) ""). simpl. rewrite Hq, Hr. simpl.
    destruct (digit_char_digit n ltac:(lia)) as [Hd Hv].
    split; [reflexivity|]. split; [discriminate|].
    split; [now rewrite Hd|]. split; [lia|]. intros a. rewrite Hv. lia.
  - rewrite decimal_fuel_S.
    destruct (digit_char_digit (n mod 10) ltac:(Z.div_mod_to_equations; lia))
      as [Hd Hv].
    destruct (Z.eqb_spec (n / 10) 0) as [Hq|Hq].
    + exists (String (Py.digit_char (n mod 10)) "").
      split; [reflexivity|]. split; [discriminate|]. simpl.
      split; [now rewrite Hd|]. split; [lia|]. intros a. rewrite Hv.
      Z.div_mod_to_equations. lia.
    + assert (Hn' : 0 <= n / 10 < 2 ^ Z.of_nat (S fuel)).
      { rewrite (Nat2Z.inj_succ (S fuel)), Z.pow_succ_r in Hn by lia.
        Z.div_mod_to_equations. lia. }
      destruct (IH (n / 10) (String (Py.digit_char (n mod 10)) acc) Hn')
        as (s & Es & Hne & Hall & Hlen & Hval).
      exists (s ++ String (Py.digit_char (n mod 10)) "").
      split; [rewrite Es, append_assoc; reflexivity|].
      split; [apply append_not_empty; discriminate|].
      split; [rewrite all_digits_app, Hall; simpl; now rewrite Hd|].
      split; [rewrite length_app; simpl; lia|].
      intros a. rewrite int_acc_app, Hval, length_app. simpl Py.int_acc.
      rewrite Hv. rewrite Nat2Z.inj_add, Z.pow_add_r by lia.
      change (10 ^ Z.of_nat (String.length (String (Py.digit_char (n mod 10)) "")))
        with 10.
      Z.div_mod_to_equations. lia.
Qed.

(** [str] of a natural number below 2^64 is a non-empty string of at
    most 64 digits that [int] reads back. *)
Lemma str_digits n :
  0 <= n < 2 ^ 64 ->
  Py.isdigit (Py.str n) = true /\ Py.all_digits (Py.str n) = true /\
  Py.int (Py.str n) = Some n.
Proof.
  intros Hn. unfold Py.str.
  destruct (Z.ltb_spec n 0) as [|_]; [lia|].
  assert (Hfuel : 0 <= n < 2 ^ Z.of_nat (S (Z.to_nat (Z.log2 n)))).
  { rewrite Nat2Z.inj_succ, Z2Nat.id by apply Z.log2_nonneg.
    destruct (Z.eq_dec n 0) as [->|Hnz]; [simpl; lia|].
    pose proof (Z.log2_spec n ltac:(lia)). lia. }
  destruct (decimal_fuel_digits _ n "" Hfuel) as (s & -> & Hne & Hall & Hlen & Hval).
  assert (Es : s ++ "" = s).
  { clear. induction s as [|c s IH]; [reflexivity|].
    rewrite append_cons. now rewrite IH. }
  rewrite Es. split; [|split].
  - unfold Py.isdigit. destruct s; [congruence | exact Hall].
  - exact Hall.
  - unfold Py.int, Py.INT_MAX_STR_DIGITS.
    assert (Hlog : 0 <= Z.log2 n < 64).
    { split; [apply Z.log2_nonneg|].
      destruct (Z.eq_dec n 0) as [->|Hnz]; [reflexivity|].
      apply Z.log2_lt_pow2; lia. }
    destruct (Nat.ltb_spec 4300 (String.length s)) as [Hbig|_]; [lia|].
    f_equal. rewrite Hval. lia.
Qed.

End StatusLinks.

(** X21.  A link made of a base with no [status] piece, then [/status/],
    then the decimal writing of an identifier of 64 bits, then nothing, a
    query string or a further path, gives that identifier back, and the
    timestamp derived from the link is the one of the identifier. *)
Theorem status_link_identifier base tweet_id query :
  ~ In "status" (Py.split "/" base) ->
  0 <= tweet_id < 2 ^ 64 ->
  query = "" \/ (exists q, query = String "?" q) \/ (exists q, query = String "/" q) ->
  extract_tweet_id (base ++ "/status/" ++ Py.str tweet_id ++ query) = Some tweet_id /\
  derived_timestamp (base ++ "/status/" ++ Py.str tweet_id ++ query)
    = tweet_id_to_datetime tweet_id.
Proof.
  intros Hbase Hid Hq.
  destruct (str_digits tweet_id Hid) as (Hisd & Hall & Hint).
  set (digits := Py.str tweet_id) in *.
  assert (Hslash : ~ In "/"%char (list_ascii_of_string digits))
    by (apply all_digits_no; [exact Hall | reflexivity]).
  assert (Hmark : ~ In "?"%char (list_ascii_of_string digits))
    by (apply all_digits_no; [exact Hall | reflexivity]).
  assert (Hsplit : exists segment rest,
            Py.split "/" (digits ++ query) = segment :: rest /\
            List.hd "" (Py.split "?" segment) = digits).
  { destruct Hq as [->|[[q ->]|[q ->]]].
    - exists digits, []. split.
      + rewrite (split_app_no_sep _ _ _ Hslash). simpl. f_equal.
        clear. induction digits as [|c s IH]; [reflexivity|].
        rewrite append_cons. now rewrite IH.
      + now rewrite (split_no_sep _ _ Hmark).
    - rewrite (split_app_no_sep _ _ _ Hslash).
      destruct (Py.split "/" (String "?" q)) as [|w ws] eqn:E;
        [now apply split_not_nil in E|].
      assert (Hw : exists w', w = String "?" w').
      { simpl in E. destruct (Py.split "/" q) as [|w0 ws0];
          injection E as <- _; now eexists. }
      destruct Hw as [w' ->]. eexists. eexists. split; [reflexivity|]. simpl.
      rewrite split_app_sep, (split_no_sep _ _ Hmark). reflexivity.
    - rewrite split_app_sep, (split_no_sep _ _ Hslash).
      eexists. eexists. split; [reflexivity|].
      now rewrite (split_no_sep _ _ Hmark). }
  destruct Hsplit as (segment & rest & Hs & Hseg).
  assert (Hparts : Py.split "/" (base ++ "/status/" ++ digits ++ query)
                   = (Py.split "/" base ++ "status" :: segment :: rest)%list).
  { change (base ++ "/status/" ++ digits ++ query)
      with (base ++ String "/" ("status" ++ String "/" (digits ++ query))).
    rewrite !split_app_sep, Hs. reflexivity. }
  assert (He : extract_tweet_id (base ++ "/status/" ++ digits ++ query)
               = Some tweet_id).
  { rewrite (extract_tweet_id_at _ _ _ Hparts Hbase). cbv zeta.
    now rewrite Hseg, Hisd. }
  split; [exact He|]. unfold derived_timestamp. now rewrite He.
Qed.

Lemma status_link_identifier_witness :
  extract_tweet_id
    ("https://twitter.com/ECOPETROL_SA" ++ "/status/"
     ++ Py.str 1994382410356600943 ++ "/photo/1")
  = Some 1994382410356600943.
Proof.
  apply (status_link_identifier "https://twitter.com/ECOPETROL_SA"
           1994382410356600943 "/photo/1").
  - vm_compute. intuition discriminate.
  - vm_compute. split; [discriminate | reflexivity].
  - right. right. now exists "photo/1".
Defined.

(** ** The calendar: from an ordinal to a date string and back *)

Section Calendar.

Lemma forallb_below (f : Z -> bool) (bound : Z) :
  List.forallb (fun k => f (Z.of_nat k)) (List.seq 0 (Z.to_nat bound)) = true ->
  forall z, 0 <= z < bound -> f z = true.
Proof.
  intros H z Hz. rewrite forallb_forall in H.
  specialize (H (Z.to_nat z)). rewrite Z2Nat.id in H by lia.
  apply H. apply in_seq. lia.
Qed.

Lemma month_day_ok (n : Z) (leapyear : bool) :
  0 <= n < 365 + (if leapyear then 1 else 0) ->
  let '(m, dd) := month_day n leapyear in
  1 <= m <= 12 /\
  1 <= dd <= Py.DAYS_IN_MONTH m + (if (m =? 2) && leapyear then 1 else 0) /\
  Py.DAYS_BEFORE_MONTH m + (if (2 <? m) && leapyear then 1 else 0) + dd = n + 1.
Proof.
  intros Hn.
  assert (Hcheck : forall (leap : bool) (z : Z), 0 <= z < 366 ->
            (let '(m, dd) := month_day z leap in
             implb (z <? 365 + (if leap then 1 else 0))
               ((1 <=? m) && (m <=? 12) && (1 <=? dd)
                && (dd <=? Py.DAYS_IN_MONTH m + (if (m =? 2) && leap then 1 else 0))
                && (Py.DAYS_BEFORE_MONTH m + (if (2 <? m) && leap then 1 else 0) + dd
                    =? z + 1))) = true).
  { intros leap. apply forallb_below. destruct leap; vm_compute; reflexivity. }
  specialize (Hcheck leapyear n ltac:(destruct leapyear; lia)).
  destruct (month_day n leapyear) as [m dd].
  destruct (Z.ltb_spec n (365 + (if leapyear then 1 else 0))) as [_|]; [|lia].
  simpl in Hcheck.
  repeat (apply andb_true_iff in Hcheck as [Hcheck ?]).
  repeat match goal with
         | H : (_ <=? _) = true |- _ => apply Z.leb_le in H
         | H : (_ =? _) = true |- _ => apply Z.eqb_eq in H
         end.
  lia.
Qed.

Lemma ord2ymd_month_day n :
  Py.ord2ymd n =
  let n0 := n - 1 in
  let n400 := n0 / Py.DI400Y in let r1 := n0 mod Py.DI400Y in
  let n100 := r1 / Py.DI100Y in let r2 := r1 mod Py.DI100Y in
  let n4 := r2 / Py.DI4Y in let r3 := r2 mod Py.DI4Y in
  let n1 := r3 / 365 in let r4 := r3 mod 365 in
  let year := n400 * 400 + 1 + n100 * 100 + n4 * 4 + n1 in
  if (n1 =? 4) || (n100 =? 4) then (year - 1, 12, 31)
  else
    let leapyear := (n1 =? 3) && (negb (n4 =? 24) || (n100 =? 3)) in
    (year, fst (month_day r4 leapyear), snd (month_day r4 leapyear)).
Proof.
  unfold Py.ord2ymd, month_day. cbv zeta.
  destruct (_ || _); [reflexivity|].
  destruct (_ <? _); reflexivity.
Qed.

Lemma ord2ymd_ymd2ord n :
  1 <= n <= Py.MAXORDINAL ->
  exists y m dd,
    Py.ord2ymd n = (y, m, dd) /\
    1 <= y <= 9999 /\ 1 <= m <= 12 /\ 1 <= dd <= Py.days_in_month y m /\
    Py.ymd2ord y m dd = n.
Proof.
  unfold Py.MAXORDINAL. intros Hn. rewrite ord2ymd_month_day. cbv zeta.
  unfold Py.DI400Y, Py.DI100Y, Py.DI4Y.
  pose proof (Z.div_mod (n - 1) 146097 ltac:(lia)) as E1.
  pose proof (Z.mod_pos_bound (n - 1) 146097 ltac:(lia)) as B1.
  set (n400 := (n - 1) / 146097) in *. set (r1 := (n - 1) mod 146097) in *.
  pose proof (Z.div_mod r1 36524 ltac:(lia)) as E2.
  pose proof (Z.mod_pos_bound r1 36524 ltac:(lia)) as B2.
  set (n100 := r1 / 36524) in *. set (r2 := r1 mod 36524) in *.
  pose proof (Z.div_mod r2 1461 ltac:(lia)) as E3.
  pose proof (Z.mod_pos_bound r2 1461 ltac:(lia)) as B3.
  set (n4 := r2 / 1461) in *. set (r3 := r2 mod 1461) in *.
  pose proof (Z.div_mod r3 365 ltac:(lia)) as E4.
  pose proof (Z.mod_pos_bound r3 365 ltac:(lia)) as B4.
  set (n1 := r3 / 365) in *. set (r4 := r3 mod 365) in *.
  clearbody n400 r1 n100 r2 n4 r3 n1 r4.
  assert (Hq : 0 <= n400 <= 24 /\ 0 <= n100 <= 4 /\ 0 <= n4 <= 24 /\ 0 <= n1 <= 4)
    by lia.
  destruct ((n1 =? 4) || (n100 =? 4)) eqn:Especial.
  - (* the last day of a leap year *)
    apply orb_true_iff in Especial.
    set (y := n400 * 400 + 1 + n100 * 100 + n4 * 4 + n1 - 1).
    assert (Hy : y = 400 * n400 + 100 * n100 + 4 * n4 + n1) by (unfold y; lia).
    clearbody y.
    assert (Hshape : (n1 = 4 /\ n100 <= 3 /\ n4 <= 23 /\ r4 = 0) \/
                     (n100 = 4 /\ n4 = 0 /\ n1 = 0 /\ r4 = 0 /\ r3 = 0 /\ r2 = 0)).
    { destruct Especial as [H|H]; apply Z.eqb_eq in H; lia. }
    assert (Hleap : Py.is_leap y = true).
    { unfold Py.is_leap.
      destruct (Z.eqb_spec (y mod 4) 0) as [_|H4]; simpl;
        [|exfalso; apply H4; Z.div_mod_to_equations; lia].
      destruct (Z.eqb_spec (y mod 100) 0) as [H100|_]; simpl; [|reflexivity].
      apply Z.eqb_eq. Z.div_mod_to_equations. lia. }
    exists y, 12, 31. split; [reflexivity|].
    unfold Py.days_in_month, Py.ymd2ord, Py.days_before_month,
      Py.days_before_year. rewrite Hleap. simpl.
    repeat split; try lia.
    Z.div_mod_to_equations. lia.
  - apply orb_false_iff in Especial as [H1 H100].
    apply Z.eqb_neq in H1, H100.
    set (y := n400 * 400 + 1 + n100 * 100 + n4 * 4 + n1).
    assert (Hy : y = 400 * n400 + 100 * n100 + 4 * n4 + n1 + 1) by (unfold y; lia).
    clearbody y.
    set (leapyear := (n1 =? 3) && (negb (n4 =? 24) || (n100 =? 3))).
    assert (Hleap : Py.is_leap y = leapyear).
    { unfold Py.is_leap, leapyear.
      destruct (Z.eqb_spec n1 3) as [E13|E13];
        destruct (Z.eqb_spec n4 24) as [E424|E424];
        destruct (Z.eqb_spec n100 3) as [E1003|E1003];
        destruct (Z.eqb_spec (y mod 4) 0) as [Y4|Y4];
        destruct (Z.eqb_spec (y mod 100) 0) as [Y100|Y100];
        destruct (Z.eqb_spec (y mod 400) 0) as [Y400|Y400];
        simpl; try reflexivity; exfalso;
        Z.div_mod_to_equations; lia. }
    clearbody leapyear.
    pose proof (month_day_ok r4 leapyear ltac:(destruct leapyear; lia)) as Hmd.
    destruct (month_day r4 leapyear) as [m dd]. simpl.
    destruct Hmd as (Hm & Hdd & Hsum).
    exists y, m, dd. split; [reflexivity|].
    unfold Py.days_in_month, Py.ymd2ord, Py.days_before_month,
      Py.days_before_year. rewrite Hleap.
    split; [lia|]. split; [lia|]. split.
    + destruct ((m =? 2) && leapyear) eqn:E2m.
      * apply andb_true_iff in E2m as [Em _]. apply Z.eqb_eq in Em. subst m.
        simpl in Hdd. lia.
      * lia.
    + Z.div_mod_to_equations. lia.
Qed.

End Calendar.

Section DateStrings.

Lemma append_nil_l (s : string) : "" ++ s = s.
Proof. reflexivity. Qed.

Lemma length_digits w n acc :
  String.length (Py.digits w n acc) = (w + String.length acc)%nat.
Proof.
  revert n acc. induction w as [|w IH]; intros n acc; simpl; [reflexivity|].
  rewrite IH. simpl. lia.
Qed.

(** With fuel enough, [decimal_fuel] writes the digits of a number of
    [S k] digits as [digits] does. *)
Lemma decimal_fuel_as_digits k :
  forall fuel n acc,
    (k <= fuel)%nat ->
    0 <= n < 10 ^ Z.of_nat (S k) ->
    (k <> 0%nat -> 10 ^ Z.of_nat k <= n) ->
    Py.decimal_fuel (S fuel) n acc = Py.digits (S k) n acc.
Proof.
  induction k as [|k IH]; intros fuel n acc Hf Hn Hlow; rewrite decimal_fuel_S.
  - change (10 ^ Z.of_nat 1) with 10 in Hn.
    destruct (Z.eqb_spec (n / 10) 0) as [_|Hq]; [reflexivity|].
    exfalso. apply Hq. Z.div_mod_to_equations. lia.
  - destruct fuel as [|fuel]; [lia|].
    specialize (Hlow ltac:(discriminate)).
    rewrite (Nat2Z.inj_succ (S k)), Z.pow_succ_r in Hn by lia.
    rewrite (Nat2Z.inj_succ k), Z.pow_succ_r in Hlow by lia.
    rewrite (Nat2Z.inj_succ k), Z.pow_succ_r in Hn by lia.
    assert (Hp : 0 < 10 ^ Z.of_nat k) by (apply Z.pow_pos_nonneg; lia).
    set (p := 10 ^ Z.of_nat k) in *.
    destruct (Z.eqb_spec (n / 10) 0) as [Hq|_];
      [exfalso; Z.div_mod_to_equations; lia|].
    rewrite (IH fuel (n / 10)); [reflexivity | lia | |].
    + rewrite (Nat2Z.inj_succ k), Z.pow_succ_r by lia. fold p.
      Z.div_mod_to_equations. lia.
    + intros _. fold p. Z.div_mod_to_equations. lia.
Qed.

Lemma zfill4_digits y : 0 <= y <= 9999 -> Py.zfill 4 y = Py.digits 4 y "".
Proof.
  intros Hy.
  assert (Hstr : exists k, (k <= 3)%nat /\ Py.str y = Py.digits (S k) y "").
  { unfold Py.str. destruct (Z.ltb_spec y 0) as [|_]; [lia|].
    pose proof (Z.log2_nonneg y) as Hl0.
    destruct (Z_lt_le_dec y 10) as [H1|H1].
    { exists 0%nat. split; [lia|]. apply decimal_fuel_as_digits; [lia | | tauto].
      change (10 ^ Z.of_nat 1) with 10. lia. }
    destruct (Z_lt_le_dec y 100) as [H2|H2].
    { exists 1%nat. split; [lia|].
      pose proof (Z.log2_le_mono 10 y H1) as Hl. change (Z.log2 10) with 3 in Hl.
      apply decimal_fuel_as_digits; [lia | |].
      - change (10 ^ Z.of_nat 2) with 100. lia.
      - intros _. change (10 ^ Z.of_nat 1) with 10. lia. }
    destruct (Z_lt_le_dec y 1000) as [H3|H3].
    { exists 2%nat. split; [lia|].
      pose proof (Z.log2_le_mono 100 y H2) as Hl. change (Z.log2 100) with 6 in Hl.
      apply decimal_fuel_as_digits; [lia | |].
      - change (10 ^ Z.of_nat 3) with 1000. lia.
      - intros _. change (10 ^ Z.of_nat 2) with 100. lia. }
    exists 3%nat. split; [lia|].
    pose proof (Z.log2_le_mono 1000 y H3) as Hl. change (Z.log2 1000) with 9 in Hl.
    apply decimal_fuel_as_digits; [lia | |].
    - change (10 ^ Z.of_nat 4) with 10000. lia.
    - intros _. change (10 ^ Z.of_nat 3) with 1000. lia. }
  destruct Hstr as (k & Hk & Hstr).
  unfold Py.zfill. rewrite Hstr, length_digits.
  destruct (Nat.ltb_spec (S k + String.length "") 4) as [_|Hge]; [reflexivity|].
  simpl in Hge. assert (k = 3%nat) as -> by lia. reflexivity.
Qed.

Lemma zfill4_shape y :
  0 <= y <= 9999 ->
  exists a b c d,
    Py.zfill 4 y = String a (String b (String c (String d ""))) /\
    Py.is_digit a && Py.is_digit b && Py.is_digit c && Py.is_digit d = true /\
    1000 * Py.digit_value a + 100 * Py.digit_value b
    + 10 * Py.digit_value c + Py.digit_value d = y.
Proof.
  intros Hy. rewrite (zfill4_digits y Hy).
  destruct (digit_char_digit (y / 10 / 10 / 10 mod 10)
              ltac:(Z.div_mod_to_equations; lia)) as [Ha Va].
  destruct (digit_char_digit (y / 10 / 10 mod 10)
              ltac:(Z.div_mod_to_equations; lia)) as [Hb Vb].
  destruct (digit_char_digit (y / 10 mod 10)
              ltac:(Z.div_mod_to_equations; lia)) as [Hc Vc].
  destruct (digit_char_digit (y mod 10)
              ltac:(Z.div_mod_to_equations; lia)) as [Hd Vd].
  eexists. eexists. eexists. eexists.
  split; [reflexivity|]. rewrite Ha, Hb, Hc, Hd, Va, Vb, Vc, Vd.
  split; [reflexivity|]. Z.div_mod_to_equations. lia.
Qed.

Lemma re_year_zfill {A} (k : Z -> string -> option A) y rest :
  0 <= y <= 9999 -> Py.re_year k (Py.zfill 4 y ++ rest) = k y rest.
Proof.
  intros Hy. destruct (zfill4_shape y Hy) as (a & b & c & d & -> & Hd & Hv).
  rewrite !append_cons, append_nil_l. unfold Py.re_year.
  now rewrite Hd, Hv.
Qed.

Ltac literal_zfill v :=
  let s := eval vm_compute in (Py.zfill 2 v) in
  change (Py.zfill 2 v) with s.

Lemma re_month_zfill {A} (k : Z -> string -> option A) m rest res :
  1 <= m <= 12 ->
  k m (String "-" rest) = Some res ->
  Py.re_month k (Py.zfill 2 m ++ String "-" rest) = Some res.
Proof.
  intros Hm Hk.
  assert (E : m = 1 \/ m = 2 \/ m = 3 \/ m = 4 \/ m = 5 \/ m = 6 \/ m = 7
              \/ m = 8 \/ m = 9 \/ m = 10 \/ m = 11 \/ m = 12) by lia.
  repeat (destruct E as [E|E]);
    subst m;
    match goal with |- context [Py.zfill 2 ?v] => literal_zfill v end;
    rewrite !append_cons, append_nil_l;
    cbv; rewrite Hk; reflexivity.
Qed.

Lemma re_day_zfill {A} (k : Z -> string -> option A) dd res :
  1 <= dd <= 31 ->
  k dd "" = Some res ->
  Py.re_day k (Py.zfill 2 dd) = Some res.
Proof.
  intros Hd Hk.
  assert (E : dd = 1 \/ dd = 2 \/ dd = 3 \/ dd = 4 \/ dd = 5 \/ dd = 6 \/ dd = 7
              \/ dd = 8 \/ dd = 9 \/ dd = 10 \/ dd = 11 \/ dd = 12 \/ dd = 13
              \/ dd = 14 \/ dd = 15 \/ dd = 16 \/ dd = 17 \/ dd = 18 \/ dd = 19
              \/ dd = 20 \/ dd = 21 \/ dd = 22 \/ dd = 23 \/ dd = 24 \/ dd = 25
              \/ dd = 26 \/ dd = 27 \/ dd = 28 \/ dd = 29 \/ dd = 30 \/ dd = 31)
    by lia.
  repeat (destruct E as [E|E]);
    subst dd;
    match goal with |- context [Py.zfill 2 ?v] => literal_zfill v end;
    cbv; rewrite Hk; reflexivity.
Qed.

Lemma days_in_month_le y m : 1 <= m <= 12 -> Py.days_in_month y m <= 31.
Proof.
  intros Hm. unfold Py.days_in_month.
  assert (E : m = 1 \/ m = 2 \/ m = 3 \/ m = 4 \/ m = 5 \/ m = 6 \/ m = 7
              \/ m = 8 \/ m = 9 \/ m = 10 \/ m = 11 \/ m = 12) by lia.
  repeat (destruct E as [E|E]); subst m; simpl;
    try destruct (Py.is_leap y); simpl; lia.
Qed.

(** The ISO form of a date parses back to the date. *)
Lemma strptime_isoformat d :
  1 <= d <= Py.MAXORDINAL -> Py.strptime_date (Py.date_isoformat d) = Some d.
Proof.
  intros Hd.
  destruct (ord2ymd_ymd2ord d Hd) as (y & m & dd & E & Hy & Hm & Hdd & Hord).
  pose proof (days_in_month_le y m Hm) as Hdim.
  unfold Py.date_isoformat. rewrite E.
  change ("-" ++ Py.zfill 2 m ++ "-" ++ Py.zfill 2 dd)
    with (String "-" (Py.zfill 2 m ++ String "-" (Py.zfill 2 dd))).
  unfold Py.strptime_date, Py.re_match.
  rewrite re_year_zfill by lia.
  unfold Py.re_lit at 1. rewrite Ascii.eqb_refl.
  rewrite (re_month_zfill _ m _ (y, m, dd, "") Hm).
  - unfold Py.make_date.
    destruct (Z.leb_spec 1 y); [|lia]. destruct (Z.leb_spec y 9999); [|lia].
    destruct (Z.leb_spec 1 m); [|lia]. destruct (Z.leb_spec m 12); [|lia].
    destruct (Z.leb_spec 1 dd); [|lia].
    destruct (Z.leb_spec dd (Py.days_in_month y m)); [|lia].
    simpl. now rewrite Hord.
  - unfold Py.re_lit. rewrite Ascii.eqb_refl.
    apply re_day_zfill; [lia | reflexivity].
Qed.

Lemma strptime_date_range s d :
  Py.strptime_date s = Some d -> 1 <= d <= Py.MAXORDINAL.
Proof.
  unfold Py.strptime_date.
  destruct (Py.re_match s) as [[[[y m] dd] [|? ?]]|]; try discriminate.
  unfold Py.make_date.
  destruct (_ && _) eqn:E; [|discriminate]. intros [= <-].
  repeat (apply andb_true_iff in E as [E ?]).
  repeat match goal with
         | H : (_ <=? _) = true |- _ => apply Z.leb_le in H
         end.
  assert (Hm : m = 1 \/ m = 2 \/ m = 3 \/ m = 4 \/ m = 5 \/ m = 6 \/ m = 7
               \/ m = 8 \/ m = 9 \/ m = 10 \/ m = 11 \/ m = 12) by lia.
  pose proof (days_in_month_le y m ltac:(lia)).
  unfold Py.ymd2ord, Py.days_before_year, Py.days_before_month, Py.MAXORDINAL.
  assert (Hb : 0 <= Py.DAYS_BEFORE_MONTH m <= 334).
  { repeat (destruct Hm as [Hm|Hm]); subst m; simpl; lia. }
  assert (Hend : Py.DAYS_BEFORE_MONTH m
                 + (if (2 <? m) && Py.is_leap y then 1 else 0) + dd
                 <= 365 + (if Py.is_leap y then 1 else 0)).
  { unfold Py.days_in_month in *.
    repeat (destruct Hm as [Hm|Hm]); subst m; simpl in *;
      destruct (Py.is_leap y); simpl in *; lia. }
  destruct ((2 <? m) && Py.is_leap y) eqn:El.
  - apply andb_true_iff in El as [_ El]. rewrite El in Hend.
    unfold Py.is_leap in El.
    Z.div_mod_to_equations. lia.
  - split; [Z.div_mod_to_equations; lia|].
    destruct (Py.is_leap y) eqn:Eleap.
    + unfold Py.is_leap in Eleap. Z.div_mod_to_equations. lia.
    + assert (Hy : y < 9999 \/ y = 9999) by lia. destruct Hy as [Hy| ->].
      * Z.div_mod_to_equations. lia.
      * change (9999 - 1) with 9998.
        change (9998 / 4) with 2499. change (9998 / 100) with 99.
        change (9998 / 400) with 24. lia.
Qed.

End DateStrings.

(** X22.  The date strings that [/stocks] writes parse back to the dates
    they stand for: the [date] of a response parses to the requested
    date, of which it is the ISO writing whatever the writing of the
    request, and the two ends of the window sent to the provider parse to
    40 days before and one day after it. *)
Theorem get_stock_dates_parse_back env symbol date resp :
  outcome (get_stock symbol date) env = Ok resp ->
  exists d start end_,
    Py.strptime_date date = Some d /\
    Py.strptime_date (sr_date resp) = Some d /\
    snd (run (get_stock symbol date) env) = [CallDownload symbol start end_] /\
    Py.strptime_date start = Some (d - 40) /\
    Py.strptime_date end_ = Some (d + 1).
Proof.
  intros Hok.
  destruct (get_stock_Ok_inv _ _ _ _ Hok) as (d & Hd & Hr & Hm).
  destruct (stock_metrics_Ok_inv _ _ _ _ Hm) as (x & Hx & Hle).
  destruct (stock_metrics_prior symbol d _ x Hx Hle) as (idx & _ & _ & Hinv).
  destruct (Hinv _ Hm) as (c & o & h & l & v & cy & cw & cm
                           & _ & _ & _ & _ & _ & _ & _ & _ & ->).
  exists d, (Py.date_isoformat (d - 40)), (Py.date_isoformat (d + 1)).
  rewrite (get_stock_in_window _ _ _ _ Hd Hr). simpl.
  split; [exact Hd|].
  split; [apply strptime_isoformat; lia|].
  split; [reflexivity|].
  split; apply strptime_isoformat; lia.
Qed.

Lemma get_stock_dates_parse_back_witness :
  exists resp,
    outcome (get_stock "EC" "2024-1-12") Sample.market = Ok resp /\
    sr_date resp = "2024-01-12" /\
    Py.strptime_date (sr_date resp) = Py.strptime_date "2024-1-12".
Proof.
  destruct (get_stock_dates_parse_back Sample.market "EC" "2024-1-12" _ eq_refl)
    as (d & start & end_ & Hd & Hback & _).
  eexists. split; [reflexivity|]. split; [reflexivity|].
  rewrite Hd. exact Hback.
Defined.
